(** * StudyFlow: time-block store, week projection, cell resolver and
      move/swap engine

    A shallow embedding of the timetable logic of StudyFlow
    (components/studyflow/Timetable.tsx and lib/store/studyflow-store.ts)
    together with the part of the ECMAScript [Date] semantics it relies on.

    Conventions of the embedding.
    - An instant (the ISO string produced by [toISOString], read back by
      [new Date(str)]) is the integer number of milliseconds since the epoch
      it encodes; the two conversions are mutually inverse on valid dates.
      [TimeClip] and invalid dates ([NaN]) are outside the model.
    - A day key (the string [yyyy-MM-dd] produced by date-fns' [format]) is
      the number of the calendar day it names, counted from 1970-01-01;
      [new Date(key)] is UTC midnight of that day, as ECMAScript prescribes
      for date-only strings.
    - A mutable [Date] object is the sequence of the time values it holds;
      each mutating call ([setHours], [setTime]) yields the next value.
    - The local time zone is a fixed offset [LocalTZA] from UTC, in
      milliseconds (no daylight-saving transitions). *)

From Stdlib Require Import ZArith List String Ascii Bool Lia QArith.
From Stdlib Require Import Sorted Permutation DecimalString DecimalZ.
Import ListNotations.
Open Scope Z_scope.

(** ** ECMAScript time arithmetic (ECMA-262, Date objects) *)

Module ES.

Definition msPerSecond : Z := 1000.
Definition msPerMinute : Z := 60000.
Definition msPerHour : Z := 3600000.
Definition msPerDay : Z := 86400000.

Definition Day (t : Z) : Z := t / msPerDay.
Definition TimeWithinDay (t : Z) : Z := t mod msPerDay.

Definition DaysInYear (y : Z) : Z :=
  if negb (y mod 4 =? 0) then 365
  else if negb (y mod 100 =? 0) then 366
  else if negb (y mod 400 =? 0) then 365
  else 366.

Definition DayFromYear (y : Z) : Z :=
  365 * (y - 1970) + (y - 1969) / 4 - (y - 1901) / 100 + (y - 1601) / 400.

(** The year containing day number [d]: ECMA-262 defines it as the largest
    [y] with [DayFromYear y <= d]; it is computed here from an estimate that
    is off by at most one (see [YearFromDay_spec]). *)
Definition YearFromDay (d : Z) : Z :=
  let y0 := 1970 + (400 * d) / 146097 in
  if d <? DayFromYear y0 then y0 - 1
  else if DayFromYear (y0 + 1) <=? d then y0 + 1
  else y0.

Definition YearFromTime (t : Z) : Z := YearFromDay (Day t).

Definition InLeapYear (t : Z) : Z :=
  if DaysInYear (YearFromTime t) =? 366 then 1 else 0.

Definition DayWithinYear (t : Z) : Z :=
  Day t - DayFromYear (YearFromTime t).

Definition MonthFromTime (t : Z) : Z :=
  let d := DayWithinYear t in
  let l := InLeapYear t in
  if d <? 31 then 0
  else if d <? 59 + l then 1
  else if d <? 90 + l then 2
  else if d <? 120 + l then 3
  else if d <? 151 + l then 4
  else if d <? 181 + l then 5
  else if d <? 212 + l then 6
  else if d <? 243 + l then 7
  else if d <? 273 + l then 8
  else if d <? 304 + l then 9
  else if d <? 334 + l then 10
  else 11.

Definition DateFromTime (t : Z) : Z :=
  let d := DayWithinYear t in
  let l := InLeapYear t in
  match MonthFromTime t with
  | 0 => d + 1
  | 1 => d - 30
  | 2 => d - 58 - l
  | 3 => d - 89 - l
  | 4 => d - 119 - l
  | 5 => d - 150 - l
  | 6 => d - 180 - l
  | 7 => d - 211 - l
  | 8 => d - 242 - l
  | 9 => d - 272 - l
  | 10 => d - 303 - l
  | _ => d - 333 - l
  end.

Definition WeekDay (t : Z) : Z := (Day t + 4) mod 7.

Definition HourFromTime (t : Z) : Z := (t / msPerHour) mod 24.
Definition MinFromTime (t : Z) : Z := (t / msPerMinute) mod 60.
Definition SecFromTime (t : Z) : Z := (t / msPerSecond) mod 60.
Definition msFromTime (t : Z) : Z := t mod msPerSecond.

Definition MakeTime (hour min sec ms : Z) : Z :=
  hour * msPerHour + min * msPerMinute + sec * msPerSecond + ms.

Definition MakeDate (day time : Z) : Z := day * msPerDay + time.

(** The day number of the [date]-th day of a month: ECMA-262 takes the day
    of an instant on the first of the month [mn] of the year [ym] and adds
    [date - 1]. *)
Definition MakeDay (year month date : Z) : Z :=
  let ym := year + month / 12 in
  let mn := month mod 12 in
  let l := if DaysInYear ym =? 366 then 1 else 0 in
  let first :=
    match mn with
    | 0 => 0
    | 1 => 31
    | 2 => 59 + l
    | 3 => 90 + l
    | 4 => 120 + l
    | 5 => 151 + l
    | 6 => 181 + l
    | 7 => 212 + l
    | 8 => 243 + l
    | 9 => 273 + l
    | 10 => 304 + l
    | _ => 334 + l
    end in
  DayFromYear ym + first + date - 1.

End ES.

(** ** Day keys *)

Definition DayKey : Type := Z.

(** [new Date(day)] for a date-only string: UTC midnight of that day. *)
Definition newDate (day : DayKey) : Z := day * ES.msPerDay.

(** ** Data model (lib/store/studyflow-store.ts) *)

Inductive Priority : Type := low | medium | high | urgent.

Module Task.
Record t : Type := mk {
  id : string;
  title : string;
  description : option string;
  deadline : Z;
  completed : bool;
  priority : Priority;
  label : string;
  estimatedTime : Q;
  createdAt : Z
}.

(** [Omit<Task, 'id' | 'createdAt'>] *)
Record fresh : Type := mkFresh {
  f_title : string;
  f_description : option string;
  f_deadline : Z;
  f_completed : bool;
  f_priority : Priority;
  f_label : string;
  f_estimatedTime : Q
}.

(** [Partial<Omit<Task, 'id' | 'createdAt'>>]: a field is [None] when the
    object does not have the property. *)
Record updates : Type := mkUpdates {
  u_title : option string;
  u_description : option (option string);
  u_deadline : option Z;
  u_completed : option bool;
  u_priority : option Priority;
  u_label : option string;
  u_estimatedTime : option Q
}.

End Task.

Module TimeBlock.
Record t : Type := mk {
  id : string;
  taskId : option string;
  title : string;
  start : Z;
  end_ : Z;
  day : DayKey;
  color : option string
}.

(** [Omit<TimeBlock, 'id'>] *)
Record fresh : Type := mkFresh {
  f_taskId : option string;
  f_title : string;
  f_start : Z;
  f_end : Z;
  f_day : DayKey;
  f_color : option string
}.

(** [Partial<Omit<TimeBlock, 'id'>>] *)
Record updates : Type := mkUpdates {
  u_taskId : option (option string);
  u_title : option string;
  u_start : option Z;
  u_end : option Z;
  u_day : option DayKey;
  u_color : option (option string)
}.

Definition duration (b : t) : Z := end_ b - start b.
End TimeBlock.

Module StudySession.
Record t : Type := mk {
  id : string;
  taskId : option string;
  title : string;
  startTime : Z;
  endTime : Z;
  duration : Q;
  productivity : Q;
  notes : option string
}.

(** [Omit<StudySession, 'id'>] *)
Record fresh : Type := mkFresh {
  f_taskId : option string;
  f_title : string;
  f_startTime : Z;
  f_endTime : Z;
  f_duration : Q;
  f_productivity : Q;
  f_notes : option string
}.

(** [Partial<Omit<StudySession, 'id'>>] *)
Record updates : Type := mkUpdates {
  u_taskId : option (option string);
  u_title : option string;
  u_startTime : option Z;
  u_endTime : option Z;
  u_duration : option Q;
  u_productivity : option Q;
  u_notes : option (option string)
}.
End StudySession.

(** ** Object spread *)

(** One property of [{ ...obj, ...updates }]: the value of [updates] when it
    has the property, that of [obj] otherwise. *)
Definition spread {A : Type} (old : A) (upd : option A) : A :=
  match upd with
  | Some v => v
  | None => old
  end.

Definition spreadTask (task : Task.t) (u : Task.updates) : Task.t :=
  Task.mk (Task.id task)
          (spread (Task.title task) (Task.u_title u))
          (spread (Task.description task) (Task.u_description u))
          (spread (Task.deadline task) (Task.u_deadline u))
          (spread (Task.completed task) (Task.u_completed u))
          (spread (Task.priority task) (Task.u_priority u))
          (spread (Task.label task) (Task.u_label u))
          (spread (Task.estimatedTime task) (Task.u_estimatedTime u))
          (Task.createdAt task).

Definition spreadTimeBlock (block : TimeBlock.t) (u : TimeBlock.updates)
  : TimeBlock.t :=
  TimeBlock.mk (TimeBlock.id block)
               (spread (TimeBlock.taskId block) (TimeBlock.u_taskId u))
               (spread (TimeBlock.title block) (TimeBlock.u_title u))
               (spread (TimeBlock.start block) (TimeBlock.u_start u))
               (spread (TimeBlock.end_ block) (TimeBlock.u_end u))
               (spread (TimeBlock.day block) (TimeBlock.u_day u))
               (spread (TimeBlock.color block) (TimeBlock.u_color u)).

Definition spreadStudySession (session : StudySession.t)
  (u : StudySession.updates) : StudySession.t :=
  StudySession.mk
    (StudySession.id session)
    (spread (StudySession.taskId session) (StudySession.u_taskId u))
    (spread (StudySession.title session) (StudySession.u_title u))
    (spread (StudySession.startTime session) (StudySession.u_startTime u))
    (spread (StudySession.endTime session) (StudySession.u_endTime u))
    (spread (StudySession.duration session) (StudySession.u_duration u))
    (spread (StudySession.productivity session)
            (StudySession.u_productivity u))
    (spread (StudySession.notes session) (StudySession.u_notes u)).

(** ** The store (zustand) *)

Record StudyFlowState : Type := mkState {
  tasks : list Task.t;
  timeBlocks : list TimeBlock.t;
  studySessions : list StudySession.t
}.

(** The object an action returns to [set]: it has a property for each
    collection the action replaces. *)
Record PartialState : Type := mkPartial {
  p_tasks : option (list Task.t);
  p_timeBlocks : option (list TimeBlock.t);
  p_studySessions : option (list StudySession.t)
}.

(** zustand's [set(fn)]: the result of [fn] is merged into the state. *)
Definition set (fn : StudyFlowState -> PartialState)
  (state : StudyFlowState) : StudyFlowState :=
  let partial := fn state in
  mkState (spread (tasks state) (p_tasks partial))
          (spread (timeBlocks state) (p_timeBlocks partial))
          (spread (studySessions state) (p_studySessions partial)).

Definition initialState : StudyFlowState := mkState [] [] [].

(** The actions. [uuidv4()] and [new Date()] are read from the environment:
    the identifier and the current instant are arguments here. An [add]
    action returns the identifier with the new state. *)

Definition addTask (id : string) (now : Z) (task : Task.fresh)
  (s : StudyFlowState) : string * StudyFlowState :=
  (id,
   set (fun state =>
          mkPartial
            (Some (tasks state ++
                   [Task.mk id (Task.f_title task) (Task.f_description task)
                            (Task.f_deadline task) (Task.f_completed task)
                            (Task.f_priority task) (Task.f_label task)
                            (Task.f_estimatedTime task) now]))
            None None) s).

Definition updateTask (id : string) (updates : Task.updates)
  : StudyFlowState -> StudyFlowState :=
  set (fun state =>
         mkPartial
           (Some (map (fun task =>
                         if (Task.id task =? id)%string
                         then spreadTask task updates else task)
                      (tasks state)))
           None None).

Definition completeTask (id : string) : StudyFlowState -> StudyFlowState :=
  set (fun state =>
         mkPartial
           (Some (map (fun task =>
                         if (Task.id task =? id)%string
                         then spreadTask task
                                (Task.mkUpdates None None None (Some true)
                                                None None None)
                         else task)
                      (tasks state)))
           None None).

Definition deleteTask (id : string) : StudyFlowState -> StudyFlowState :=
  set (fun state =>
         mkPartial
           (Some (filter (fun task => negb (Task.id task =? id)%string)
                         (tasks state)))
           None None).

Definition addTimeBlock (id : string) (timeBlock : TimeBlock.fresh)
  (s : StudyFlowState) : string * StudyFlowState :=
  (id,
   set (fun state =>
          mkPartial
            None
            (Some (timeBlocks state ++
                   [TimeBlock.mk id (TimeBlock.f_taskId timeBlock)
                                 (TimeBlock.f_title timeBlock)
                                 (TimeBlock.f_start timeBlock)
                                 (TimeBlock.f_end timeBlock)
                                 (TimeBlock.f_day timeBlock)
                                 (TimeBlock.f_color timeBlock)]))
            None) s).

Definition updateTimeBlock (id : string) (updates : TimeBlock.updates)
  : StudyFlowState -> StudyFlowState :=
  set (fun state =>
         mkPartial
           None
           (Some (map (fun block =>
                         if (TimeBlock.id block =? id)%string
                         then spreadTimeBlock block updates else block)
                      (timeBlocks state)))
           None).

Definition deleteTimeBlock (id : string)
  : StudyFlowState -> StudyFlowState :=
  set (fun state =>
         mkPartial
           None
           (Some (filter (fun block => negb (TimeBlock.id block =? id)%string)
                         (timeBlocks state)))
           None).

Definition addStudySession (id : string) (session : StudySession.fresh)
  (s : StudyFlowState) : string * StudyFlowState :=
  (id,
   set (fun state =>
          mkPartial
            None None
            (Some (studySessions state ++
                   [StudySession.mk id (StudySession.f_taskId session)
                                    (StudySession.f_title session)
                                    (StudySession.f_startTime session)
                                    (StudySession.f_endTime session)
                                    (StudySession.f_duration session)
                                    (StudySession.f_productivity session)
                                    (StudySession.f_notes session)]))) s).

Definition updateStudySession (id : string)
  (updates : StudySession.updates) : StudyFlowState -> StudyFlowState :=
  set (fun state =>
         mkPartial
           None None
           (Some (map (fun session =>
                         if (StudySession.id session =? id)%string
                         then spreadStudySession session updates
                         else session)
                      (studySessions state)))).

Definition deleteStudySession (id : string)
  : StudyFlowState -> StudyFlowState :=
  set (fun state =>
         mkPartial
           None None
           (Some (filter
                    (fun session => negb (StudySession.id session =? id)%string)
                    (studySessions state)))).

Definition getTimeBlocksForDay (day : DayKey) (state : StudyFlowState)
  : list TimeBlock.t :=
  filter (fun block => TimeBlock.day block =? day) (timeBlocks state).

(** [timeBlocks.find(block => block.id === id)] *)
Definition findTimeBlock (id : string) (blocks : list TimeBlock.t)
  : option TimeBlock.t :=
  find (fun block => (TimeBlock.id block =? id)%string) blocks.

(** ** [Date] methods, in a zone at a fixed offset from UTC *)

Section LocalZone.

(** Offset of local time from UTC, in milliseconds (ECMA-262's LocalTZA,
    taken constant). *)
Variable LocalTZA : Z.

Definition LocalTime (t : Z) : Z := t + LocalTZA.
Definition UTC (t : Z) : Z := t - LocalTZA.

Definition getHours (t : Z) : Z := ES.HourFromTime (LocalTime t).
Definition getMinutes (t : Z) : Z := ES.MinFromTime (LocalTime t).
Definition getSeconds (t : Z) : Z := ES.SecFromTime (LocalTime t).
Definition getMilliseconds (t : Z) : Z := ES.msFromTime (LocalTime t).
Definition getDate (t : Z) : Z := ES.DateFromTime (LocalTime t).
Definition getDay (t : Z) : Z := ES.WeekDay (LocalTime t).

(** Number of the local calendar day an instant falls on. *)
Definition localDay (t : Z) : Z := ES.Day (LocalTime t).

(** [d.setHours(hour, min, sec, ms)]. *)
Definition setHours4 (t hour min sec ms : Z) : Z :=
  UTC (ES.MakeDate (ES.Day (LocalTime t)) (ES.MakeTime hour min sec ms)).

(** [d.setHours(hour, min, sec)]: the milliseconds are kept. *)
Definition setHours (t hour min sec : Z) : Z :=
  setHours4 t hour min sec (ES.msFromTime (LocalTime t)).

(** [d.setDate(date)] *)
Definition setDate (t date : Z) : Z :=
  let l := LocalTime t in
  UTC (ES.MakeDate
         (ES.MakeDay (ES.YearFromTime l) (ES.MonthFromTime l) date)
         (ES.TimeWithinDay l)).

(** *** date-fns *)

(** date-fns [format(date, 'yyyy-MM-dd')]: the local calendar day. *)
Definition format_yyyy_MM_dd (t : Z) : DayKey := localDay t.

(** date-fns [addDays(date, amount)]: the date itself when [amount] is 0,
    [setDate(getDate() + amount)] otherwise. *)
Definition addDays (t amount : Z) : Z :=
  if amount =? 0 then t else setDate t (getDate t + amount).

(** date-fns [startOfWeek(date)] with the default [weekStartsOn = 0]. *)
Definition startOfWeek (t : Z) : Z :=
  let weekStartsOn := 0 in
  let day := getDay t in
  let diff := (if day <? weekStartsOn then 7 else 0) + day - weekStartsOn in
  let t := setDate t (getDate t - diff) in
  setHours4 t 0 0 0 0.

(** ** Timetable component (components/studyflow/Timetable.tsx) *)

Definition HOURS : list Z :=
  [0; 1; 2; 3; 4; 5; 6; 7; 8; 9; 10; 11; 12; 13; 14; 15; 16; 17; 18; 19; 20;
   21; 22; 23].

Definition DAYS_OF_WEEK_INDICES : list Z := [0; 1; 2; 3; 4; 5; 6].

(** [arr.map((x, index) => f x index)] *)
Fixpoint mapi_from {A B : Type} (f : A -> Z -> B) (index : Z) (l : list A)
  : list B :=
  match l with
  | [] => []
  | x :: l' => f x index :: mapi_from f (index + 1) l'
  end.

Definition mapi {A B : Type} (f : A -> Z -> B) (l : list A) : list B :=
  mapi_from f 0 l.

(** *** AddTimeBlockDialog *)

(** White space of [String.prototype.trim], as far as it is ASCII. *)
Definition isWhiteSpace (c : ascii) : bool :=
  let n := nat_of_ascii c in
  ((9 <=? n) && (n <=? 13))%nat || (n =? 32)%nat.

Fixpoint trimStart (s : string) : string :=
  match s with
  | String c s' => if isWhiteSpace c then trimStart s' else s
  | EmptyString => EmptyString
  end.

Fixpoint trimEnd (s : string) : string :=
  match s with
  | String c s' =>
      match trimEnd s' with
      | EmptyString => if isWhiteSpace c then EmptyString
                       else String c EmptyString
      | rest => String c rest
      end
  | EmptyString => EmptyString
  end.

Definition trim (s : string) : string := trimEnd (trimStart s).

(** A string is falsy exactly when it is empty. *)
Definition truthy (s : string) : bool :=
  match s with
  | EmptyString => false
  | String _ _ => true
  end.

(** [handleAdd]: the block handed to [onAdd], or [None] when the handler
    returns early. [title], [duration] and [color] are the dialog's state. *)
Definition handleAdd (selectedDay : DayKey) (selectedHour : Z)
  (title : string) (duration : Z) (color : string)
  : option TimeBlock.fresh :=
  if negb (truthy (trim title)) then None
  else
    let day := selectedDay in
    let start := newDate day in
    let start := setHours start selectedHour 0 0 in
    let end_ := start in
    let end_ := setHours end_ (getHours start + duration) 0 0 in
    let end_ :=
      if negb (getDate end_ =? getDate start)
      then setHours end_ 23 59 59
      else end_ in
    Some (TimeBlock.mkFresh None title start end_ day (Some color)).

(** The dialog is given [onAdd = addTimeBlock]: a submission of the form. *)
Definition submitAdd (id : string) (selectedDay : DayKey) (selectedHour : Z)
  (title : string) (duration : Z) (color : string)
  (state : StudyFlowState) : StudyFlowState :=
  match handleAdd selectedDay selectedHour title duration color with
  | Some timeBlock => snd (addTimeBlock id timeBlock state)
  | None => state
  end.

(** *** TimeCell *)

Definition currentHourStart (day : DayKey) (hour : Z) : Z :=
  setHours4 (newDate day) hour 0 0 0.

Definition currentHourEnd (day : DayKey) (hour : Z) : Z :=
  setHours4 (newDate day) (hour + 1) 0 0 0.

Definition blocksForCell (day : DayKey) (hour : Z)
  (timeBlocks : list TimeBlock.t) : list TimeBlock.t :=
  filter (fun block =>
            let blockStartDate := TimeBlock.start block in
            let blockEndDate := TimeBlock.end_ block in
            (getHours blockStartDate =? hour)
            || ((blockStartDate <? currentHourStart day hour)
                && (blockEndDate >? currentHourStart day hour)))
         timeBlocks.

Definition isFirstOccurrence (hour : Z) (block : TimeBlock.t) : bool :=
  let blockStartDate := TimeBlock.start block in
  getHours blockStartDate =? hour.

Definition spanningBlocks (day : DayKey) (hour : Z)
  (timeBlocks : list TimeBlock.t) : list TimeBlock.t :=
  filter (fun block =>
            let blockStartDate := TimeBlock.start block in
            negb (getHours blockStartDate =? hour))
         (blocksForCell day hour timeBlocks).

Definition startingBlocksForCell (day : DayKey) (hour : Z)
  (timeBlocks : list TimeBlock.t) : list TimeBlock.t :=
  filter (isFirstOccurrence hour) (blocksForCell day hour timeBlocks).

(** What the cell shows besides the indicator of spanning blocks: the
    starting blocks, else the add dialog when nothing spans it, else
    nothing. *)
Inductive CellBody : Type :=
| Blocks (starting : list TimeBlock.t)
| AddDialog (selectedDay : DayKey) (selectedHour : Z)
| Nothing.

Definition cellBody (day : DayKey) (hour : Z)
  (timeBlocks : list TimeBlock.t) : CellBody :=
  match startingBlocksForCell day hour timeBlocks with
  | _ :: _ as starting => Blocks starting
  | [] =>
      match spanningBlocks day hour timeBlocks with
      | [] => AddDialog day hour
      | _ :: _ => Nothing
      end
  end.

(** *** Week projection *)

Definition weekDates (weekStart : Z) : list DayKey :=
  mapi (fun _ index =>
          let date := addDays weekStart index in
          format_yyyy_MM_dd date)
       DAYS_OF_WEEK_INDICES.

(** [weekDates.includes(day)] *)
Definition includes (keys : list DayKey) (day : DayKey) : bool :=
  existsb (fun k => k =? day) keys.

Definition weekTimeBlocks (weekStart : Z) (timeBlocks : list TimeBlock.t)
  : list TimeBlock.t :=
  filter (fun block => includes (weekDates weekStart) (TimeBlock.day block))
         timeBlocks.

(** The blocks handed to the cells of the column [index]:
    [weekTimeBlocks.filter(block => block.day === weekDates[index])]. *)
Definition columnTimeBlocks (weekStart : Z) (index : nat)
  (timeBlocks : list TimeBlock.t) : list TimeBlock.t :=
  filter (fun block =>
            match nth_error (weekDates weekStart) index with
            | Some day => TimeBlock.day block =? day
            | None => false
            end)
         (weekTimeBlocks weekStart timeBlocks).

Definition handlePrevWeek (prev : Z) : Z := addDays prev (-7).
Definition handleNextWeek (prev : Z) : Z := addDays prev 7.

(** *** Drag end *)

(** [over.data.current]: [sortable] is set for a block (a sortable item),
    [day] and [hour] are the coordinates of a cell. *)
Record OverData : Type := mkOverData {
  sortable : bool;
  d_day : option DayKey;
  d_hour : option Z
}.

Record Over : Type := mkOver {
  over_id : string;
  current : option OverData
}.

Record DragEndEvent : Type := mkEvent {
  active_id : string;
  over : option Over
}.

(** [over.data.current?.sortable], as a condition *)
Definition overSortable (o : Over) : bool :=
  match current o with
  | Some d => sortable d
  | None => false
  end.

(** [over.data.current?.day && over.data.current?.hour !== undefined]: the
    cell coordinates when the condition holds. *)
Definition overCell (o : Over) : option (DayKey * Z) :=
  match current o with
  | Some d =>
      match d_day d, d_hour d with
      | Some day, Some hour => Some (day, hour)
      | _, _ => None
      end
  | None => None
  end.

(** [handleDragEnd]; [timeBlocks] is the collection of the store. The
    notifications ([toast]) are not modelled. *)
Definition handleDragEnd (event : DragEndEvent) (state : StudyFlowState)
  : StudyFlowState :=
  let timeBlocks := timeBlocks state in
  match over event with
  | None => state
  | Some over =>
      if negb (active_id event =? over_id over)%string && overSortable over
      then
        match findTimeBlock (active_id event) timeBlocks,
              findTimeBlock (over_id over) timeBlocks with
        | Some activeTimeBlock, Some overTimeBlock =>
            let activeStart := TimeBlock.start activeTimeBlock in
            let activeEnd := TimeBlock.end_ activeTimeBlock in
            let activeDurationMs := activeEnd - activeStart in
            let overStart := TimeBlock.start overTimeBlock in
            let overEnd := TimeBlock.end_ overTimeBlock in
            let overDurationMs := overEnd - overStart in
            let newActiveStart := overStart in
            let newActiveEnd := newActiveStart + activeDurationMs in
            let newOverStart := activeStart in
            let newOverEnd := newOverStart + overDurationMs in
            let state :=
              updateTimeBlock (TimeBlock.id activeTimeBlock)
                (TimeBlock.mkUpdates None None (Some newActiveStart)
                   (Some newActiveEnd) (Some (TimeBlock.day overTimeBlock))
                   None) state in
            updateTimeBlock (TimeBlock.id overTimeBlock)
              (TimeBlock.mkUpdates None None (Some newOverStart)
                 (Some newOverEnd) (Some (TimeBlock.day activeTimeBlock))
                 None) state
        | _, _ => state
        end
      else
        match overCell over with
        | Some (day, hour) =>
            match findTimeBlock (active_id event) timeBlocks with
            | Some activeTimeBlock =>
                let oldStart := TimeBlock.start activeTimeBlock in
                let oldEnd := TimeBlock.end_ activeTimeBlock in
                let durationMs := oldEnd - oldStart in
                let newStart := newDate day in
                let newStart := setHours newStart hour 0 0 in
                let newEnd := newStart in
                let newEnd := newStart + durationMs in
                let newEnd :=
                  if negb (getDate newEnd =? getDate newStart)
                  then setHours newEnd 23 59 59
                  else newEnd in
                updateTimeBlock (TimeBlock.id activeTimeBlock)
                  (TimeBlock.mkUpdates None None (Some newStart)
                     (Some newEnd) (Some day) None) state
            | None => state
            end
        | None => state
        end
  end.

(** ** Arrays, maps and numbers of the language *)

(** [arr.sort(compare)]: the sort is stable, so with a [compare] that is a
    difference of keys the result is the one stable ordering of the array;
    it is computed here by insertion from the right. *)
Fixpoint insertSorted {A : Type} (compare : A -> A -> Z) (x : A)
  (sorted : list A) : list A :=
  match sorted with
  | [] => [x]
  | y :: rest =>
      if compare x y <=? 0 then x :: sorted
      else y :: insertSorted compare x rest
  end.

Definition Array_sort {A : Type} (compare : A -> A -> Z) (arr : list A)
  : list A :=
  fold_right (insertSorted compare) [] arr.

(** A [Map<string, number>]: its entries in insertion order. *)
Definition StringMap : Type := list (string * Z).

Fixpoint Map_get (key : string) (m : StringMap) : option Z :=
  match m with
  | [] => None
  | (k, v) :: rest => if (k =? key)%string then Some v else Map_get key rest
  end.

(** [m.set(key, value)]: a present key keeps its place. *)
Fixpoint Map_set (key : string) (value : Z) (m : StringMap) : StringMap :=
  match m with
  | [] => [(key, value)]
  | (k, v) :: rest =>
      if (k =? key)%string then (k, value) :: rest
      else (k, v) :: Map_set key value rest
  end.

(** [`${n}`] for an integer [n]. *)
Definition Number_toString (n : Z) : string :=
  NilZero.string_of_int (Z.to_int n).

(** [str.slice(0, end)] *)
Definition slice0 (str : string) (end_ : Z) : string :=
  let len := Z.of_nat (String.length str) in
  let to := if end_ <? 0 then Z.max (len + end_) 0 else Z.min end_ len in
  substring 0 (Z.to_nat to) str.

(** *** date-fns, continued *)

Definition startOfDay (t : Z) : Z := setHours4 t 0 0 0 0.

Definition isAfter (date dateToCompare : Z) : bool := date >? dateToCompare.

Definition isBefore (date dateToCompare : Z) : bool := date <? dateToCompare.

(** ** Selectors of the store *)

(** [getUpcomingDeadlines(days)]; [now] is [new Date()]. A deadline of the
    model is a valid instant, so the tests [!task.deadline] are false. *)
Definition getUpcomingDeadlines (now days : Z) (state : StudyFlowState)
  : list Task.t :=
  let today := startOfDay now in
  let futureDate := addDays today days in
  Array_sort
    (fun a b => Task.deadline a - Task.deadline b)
    (filter (fun task =>
               if Task.completed task then false
               else
                 let deadlineDate := Task.deadline task in
                 isAfter deadlineDate today
                 && isBefore deadlineDate futureDate)
            (tasks state)).

(** [block.taskId] as a condition: present and not empty. *)
Definition hasTaskId (block : TimeBlock.t) : bool :=
  match TimeBlock.taskId block with
  | Some id => truthy id
  | None => false
  end.

(** [todayTaskIds.includes(id)] *)
Definition includesId (ids : list (option string)) (id : string) : bool :=
  existsb (fun x =>
             match x with
             | Some x => (x =? id)%string
             | None => false
             end) ids.

(** [getTasksForToday()]; [now] is [new Date()]. *)
Definition getTasksForToday (now : Z) (state : StudyFlowState)
  : list Task.t :=
  let today := format_yyyy_MM_dd now in
  let todayTaskIds :=
    map TimeBlock.taskId
        (filter (fun block =>
                   (TimeBlock.day block =? today) && hasTaskId block)
                (timeBlocks state)) in
  filter (fun task =>
            includesId todayTaskIds (Task.id task)
            || ((format_yyyy_MM_dd (Task.deadline task) =? today)
                && negb (Task.completed task)))
         (tasks state).

(** ** DeadlineTracker component
       (components/studyflow/DeadlineTracker.tsx) *)

Definition Priority_eqb (p q : Priority) : bool :=
  match p, q with
  | low, low | medium, medium | high, high | urgent, urgent => true
  | _, _ => false
  end.

(** [filteredTasks]; the filter ['all'] of the priority is [None], that of
    the label is the string ["all"]. *)
Definition filteredTasks (showCompleted : bool)
  (filterPriority : option Priority) (filterLabel : string)
  (tasks : list Task.t) : list Task.t :=
  filter (fun task =>
            if negb showCompleted && Task.completed task then false
            else if match filterPriority with
                    | Some p => negb (Priority_eqb (Task.priority task) p)
                    | None => false
                    end then false
            else if negb (filterLabel =? "all")%string
                    && negb (Task.label task =? filterLabel)%string
                 then false
            else true)
         tasks.

Definition sortedTasks (showCompleted : bool)
  (filterPriority : option Priority) (filterLabel : string)
  (tasks : list Task.t) : list Task.t :=
  Array_sort (fun a b => Task.deadline a - Task.deadline b)
             (filteredTasks showCompleted filterPriority filterLabel tasks).

Definition handleToggleComplete (taskId : string) (state : StudyFlowState)
  : StudyFlowState :=
  match find (fun t => (Task.id t =? taskId)%string) (tasks state) with
  | Some task =>
      updateTask taskId
        (Task.mkUpdates None None None (Some (negb (Task.completed task)))
                        None None None)
        state
  | None => state
  end.

(** ** Analytics component (components/studyflow/Analytics.tsx) *)

(** [completionStats] without [completionRate], which is computed in
    floating point. *)
Record CompletionStats : Type := mkStats {
  total : Z;
  completed : Z;
  pending : Z
}.

Definition completionStats (tasks : list Task.t) : CompletionStats :=
  let total := Z.of_nat (List.length tasks) in
  let completed :=
    Z.of_nat (List.length (filter (fun task => Task.completed task) tasks)) in
  mkStats total completed (total - completed).

(** [task.priority.charAt(0).toUpperCase() + task.priority.slice(1)] *)
Definition capitalizedPriority (p : Priority) : string :=
  match p with
  | low => "Low"
  | medium => "Medium"
  | high => "High"
  | urgent => "Urgent"
  end.

(** [tasksByPriority]; [t] is the translation function. *)
Definition tasksByPriority (t : string -> string) (tasks : list Task.t)
  : StringMap :=
  fold_left
    (fun priorityMap task =>
       let priority :=
         t ("deadlineTracker.priority"
            ++ capitalizedPriority (Task.priority task))%string in
       Map_set priority
               ((match Map_get priority priorityMap with
                 | Some count => if count =? 0 then 0 else count
                 | None => 0
                 end) + 1)
               priorityMap)
    tasks [].

(** ** Utilities (lib/utils.ts) *)

(** [truncateString(str, length)] *)
Definition truncateString (str : string) (length : Z) : string :=
  if Z.of_nat (String.length str) <=? length then str
  else (slice0 str length ++ "...")%string.

(** The body of the loop of [generateTimeSlots], run [count] times from
    [hour]. *)
Fixpoint timeSlotsFrom (hour : Z) (count : nat) : list string :=
  match count with
  | O => []
  | S count' =>
      (Number_toString hour ++ ":00")%string
      :: (Number_toString hour ++ ":30")%string
      :: timeSlotsFrom (hour + 1) count'
  end.

(** [generateTimeSlots(startHour, endHour)]: the loop runs for the hours
    from [startHour] to [endHour]. *)
Definition generateTimeSlots (startHour endHour : Z) : list string :=
  timeSlotsFrom startHour (Z.to_nat (endHour - startHour + 1)).

(** [formatTime(minutes)], for a whole number of minutes; [%] is the
    remainder that has the sign of the dividend. *)
Definition formatTime (minutes : Z) : string :=
  let hours := minutes / 60 in
  let mins := Z.rem minutes 60 in
  if hours =? 0 then (Number_toString mins ++ "m")%string
  else (Number_toString hours ++ "h "
        ++ (if mins >? 0 then Number_toString mins ++ "m" else ""))%string.

(** ** AddTaskDialog (components/studyflow/DeadlineTracker.tsx) *)

(** [handleAdd] of the task dialog: the task handed to [onAdd], or [None]
    when the handler returns early. The arguments are the dialog's state;
    [deadline] is [None] while no date is chosen. *)
Definition AddTaskDialog_handleAdd (title description : string)
  (deadline : option Z) (priority : Priority) (label : string)
  (estimatedTime : Q) : option Task.fresh :=
  if negb (truthy (trim title))
     || match deadline with Some _ => false | None => true end
  then None
  else
    match deadline with
    | Some deadline =>
        Some (Task.mkFresh (trim title) (Some (trim description)) deadline
                           false priority label estimatedTime)
    | None => None
    end.

(** The dialog is given [onAdd = addTask]. *)
Definition submitTask (id : string) (now : Z) (title description : string)
  (deadline : option Z) (priority : Priority) (label : string)
  (estimatedTime : Q) (state : StudyFlowState) : StudyFlowState :=
  match AddTaskDialog_handleAdd title description deadline priority label
                                estimatedTime with
  | Some task => snd (addTask id now task state)
  | None => state
  end.

(** ** Vocabulary of the further properties *)

(** No two records of the collection have the same identifier. *)
Definition uniqueIds {A : Type} (ident : A -> string) (l : list A) : Prop :=
  NoDup (map ident l).

(** What a drag never touches in a block. *)
Definition identity (block : TimeBlock.t)
  : string * option string * string * option string :=
  (TimeBlock.id block, TimeBlock.taskId block, TimeBlock.title block,
   TimeBlock.color block).

(** The number of tasks whose translated priority is [key]. *)
Definition countPriority (t : string -> string) (key : string)
  (tasks : list Task.t) : Z :=
  Z.of_nat
    (List.length
       (filter (fun task =>
                  (t ("deadlineTracker.priority"
                      ++ capitalizedPriority (Task.priority task))
                   =? key)%string)
               tasks)).

(** No block refers to a task. *)
Definition noTaskRefs (state : StudyFlowState) : Prop :=
  forall block, In block (timeBlocks state) -> TimeBlock.taskId block = None.

Definition isDigit (c : ascii) : bool :=
  let n := nat_of_ascii c in ((48 <=? n) && (n <=? 57))%nat.

Fixpoint allDigits (s : string) : bool :=
  match s with
  | EmptyString => true
  | String c s' => isDigit c && allDigits s'
  end.

(** ** Sample data *)

Definition day_2024_01_01 : DayKey := 19723.
Definition day_2024_01_02 : DayKey := 19724.

(** The instant that is [hour]:00 UTC on the day of a key. *)
Definition utcHour (day : DayKey) (hour : Z) : Z :=
  newDate day + hour * ES.msPerHour.

(** 09:00 to 11:00 UTC on 1 January 2024. *)
Definition study : TimeBlock.t :=
  TimeBlock.mk "a" None "Study" (utcHour day_2024_01_01 9)
               (utcHour day_2024_01_01 11) day_2024_01_01
               (Some "bg-red-200"%string).

(** 16:00 to 17:00 UTC on 2 January 2024. *)
Definition reading : TimeBlock.t :=
  TimeBlock.mk "b" None "Reading" (utcHour day_2024_01_02 16)
               (utcHour day_2024_01_02 17) day_2024_01_02
               (Some "bg-blue-200"%string).


Definition sampleState : StudyFlowState := mkState [] [study; reading] [].

Definition blockTarget (id : string) : Over :=
  mkOver id (Some (mkOverData true None None)).

Definition cellTarget (day : DayKey) (hour : Z) : Over :=
  mkOver "cell" (Some (mkOverData false (Some day) (Some hour))).

Definition dropOnReading : DragEndEvent :=
  mkEvent "a" (Some (blockTarget "b")).

Definition dropOnItself : DragEndEvent :=
  mkEvent "a" (Some (blockTarget "a")).

Definition dropAt14 : DragEndEvent :=
  mkEvent "a" (Some (cellTarget day_2024_01_02 14)).

Definition dropAt23 : DragEndEvent :=
  mkEvent "a" (Some (cellTarget day_2024_01_01 23)).

(** Two tasks, the second completed, and a store that holds them with
    the two blocks. *)
Definition essay : Task.t :=
  Task.mk "t1" "Essay" None (utcHour day_2024_01_02 12) false high "History"
          (2 # 1) (utcHour day_2024_01_01 8).

Definition quiz : Task.t :=
  Task.mk "t2" "Quiz" None (utcHour day_2024_01_01 18) true low "Physics"
          (1 # 2) (utcHour day_2024_01_01 8).

Definition sampleStore : StudyFlowState :=
  mkState [essay; quiz] [study; reading] [].

(** 14:00 to 16:00 UTC on 2 January 2024: five hours west of UTC the
    block from 09:00 to 11:00 of 2 January. *)
Definition seminar : TimeBlock.t :=
  TimeBlock.mk "d" None "Seminar" (utcHour day_2024_01_02 14)
               (utcHour day_2024_01_02 16) day_2024_01_02 None.

(** The zone five hours west of UTC. *)
Definition utcMinus5 : Z := -5 * ES.msPerHour.

(** An update that supplies a title and an absent colour. *)
Definition retitle : TimeBlock.updates :=
  TimeBlock.mkUpdates None (Some "Revision"%string) None None None
                      (Some None).

Definition noTaskUpdates : Task.updates :=
  Task.mkUpdates None None None None None None None.

Definition noSessionUpdates : StudySession.updates :=
  StudySession.mkUpdates None None None None None None None.

Definition lecture : TimeBlock.fresh :=
  TimeBlock.mkFresh (Some "t1"%string) "Lecture"
                    (utcHour day_2024_01_01 13) (utcHour day_2024_01_01 14)
                    day_2024_01_01 None.

(** ** Vocabulary of the properties *)

(** The drag ends on another block: the first branch of [handleDragEnd],
    with both blocks found. [a] is the moved block and [b] the target. *)
Definition dropsOnBlock (event : DragEndEvent) (state : StudyFlowState)
  (a b : TimeBlock.t) : Prop :=
  match over event with
  | Some o =>
      active_id event <> over_id o /\
      overSortable o = true /\
      findTimeBlock (active_id event) (timeBlocks state) = Some a /\
      findTimeBlock (over_id o) (timeBlocks state) = Some b
  | None => False
  end.

(** The drag ends on the cell [(day, hour)]: the second branch of
    [handleDragEnd], with the moved block [a] found. *)
Definition dropsOnCell (event : DragEndEvent) (state : StudyFlowState)
  (a : TimeBlock.t) (day : DayKey) (hour : Z) : Prop :=
  match over event with
  | Some o =>
      (active_id event = over_id o \/ overSortable o = false) /\
      overCell o = Some (day, hour) /\
      findTimeBlock (active_id event) (timeBlocks state) = Some a
  | None => False
  end.

(** Every block of the store ends after it starts. *)
Definition wellFormed (state : StudyFlowState) : Prop :=
  forall b, In b (timeBlocks state) -> TimeBlock.start b < TimeBlock.end_ b.

(** The instant at which the local clock shows [hour]:00 on the calendar
    day of the key. *)
Definition localInstant (day : DayKey) (hour : Z) : Z :=
  UTC (ES.MakeDate day (ES.MakeTime hour 0 0 0)).

(** No record of the collection has the identifier. *)
Definition unknownId {A : Type} (ident : A -> string) (id : string)
  (l : list A) : Prop :=
  forall x, In x l -> ident x <> id.

(** * Properties *)

(** ** Calendar and clock arithmetic *)

(** [YearFromDay] meets its defining property in ECMA-262. *)
Lemma YearFromDay_spec (d : Z) :
  ES.DayFromYear (ES.YearFromDay d) <= d
  < ES.DayFromYear (ES.YearFromDay d + 1).
Proof.
  unfold ES.YearFromDay.
  destruct (d <? _) eqn:E1; [|destruct (_ <=? d) eqn:E2];
    rewrite ?Z.ltb_lt, ?Z.ltb_ge, ?Z.leb_le, ?Z.leb_gt in *;
    unfold ES.DayFromYear in *; Z.div_mod_to_equations; lia.
Qed.

Lemma DayFromYear_mono (y y' : Z) :
  y <= y' -> ES.DayFromYear y <= ES.DayFromYear y'.
Proof. unfold ES.DayFromYear. intros H. Z.div_mod_to_equations. lia. Qed.

Lemma YearFromDay_largest (d y : Z) :
  ES.DayFromYear y <= d -> y <= ES.YearFromDay d.
Proof.
  intros H. destruct (Z.le_gt_cases y (ES.YearFromDay d)) as [L|G];
    [exact L|].
  pose proof (YearFromDay_spec d) as [_ S].
  pose proof (DayFromYear_mono (ES.YearFromDay d + 1) y ltac:(lia)). lia.
Qed.

(** The day of the month depends on the instant through its day only. *)
Lemma DateFromTime_Day (t t' : Z) :
  ES.Day t = ES.Day t' -> ES.DateFromTime t = ES.DateFromTime t'.
Proof.
  intros H.
  unfold ES.DateFromTime, ES.MonthFromTime, ES.InLeapYear, ES.DayWithinYear,
    ES.YearFromTime.
  now rewrite H.
Qed.

Lemma getDate_localDay (t t' : Z) :
  localDay t = localDay t' -> getDate t = getDate t'.
Proof. apply DateFromTime_Day. Qed.

Lemma getDate_differs (t t' : Z) :
  (getDate t =? getDate t') = false -> localDay t <> localDay t'.
Proof.
  intros H E. apply getDate_localDay in E. apply Z.eqb_neq in H. contradiction.
Qed.

Lemma LocalTime_UTC (t : Z) : LocalTime (UTC t) = t.
Proof. unfold LocalTime, UTC. lia. Qed.

(** Counting [n] days on from the day of the month of an instant, within
    its month and year, gives the day [n] days later. *)
Lemma MakeDay_DateFromTime (t n : Z) :
  ES.MakeDay (ES.YearFromTime t) (ES.MonthFromTime t) (ES.DateFromTime t + n)
  = ES.Day t + n.
Proof.
  unfold ES.MakeDay, ES.DateFromTime, ES.MonthFromTime, ES.InLeapYear.
  unfold ES.DayWithinYear.
  set (y := ES.YearFromTime t).
  set (l := if ES.DaysInYear y =? 366 then 1 else 0).
  set (d := ES.Day t - ES.DayFromYear y).
  repeat match goal with
         | |- context [if ?x <? ?b then _ else _] => destruct (x <? b)
         end;
    repeat match goal with
           | |- context [?k / 12] =>
               let v := eval vm_compute in (k / 12) in
               change (k / 12) with v
           | |- context [?k mod 12] =>
               let v := eval vm_compute in (k mod 12) in
               change (k mod 12) with v
           end;
    cbv beta iota zeta; rewrite !Z.add_0_r; fold l; unfold d; lia.
Qed.

Lemma setDate_days (t n : Z) :
  setDate t (getDate t + n) = t + n * ES.msPerDay.
Proof.
  unfold setDate, getDate. rewrite MakeDay_DateFromTime.
  unfold UTC, LocalTime, ES.MakeDate, ES.Day, ES.TimeWithinDay, ES.msPerDay.
  Z.div_mod_to_equations. lia.
Qed.

Lemma addDays_days (t amount : Z) :
  addDays t amount = t + amount * ES.msPerDay.
Proof.
  unfold addDays. destruct (Z.eqb_spec amount 0) as [->|_].
  - lia.
  - apply setDate_days.
Qed.

Ltac unfold_time :=
  rewrite ?addDays_days in *;
  unfold format_yyyy_MM_dd, currentHourStart, currentHourEnd, newDate in *;
  unfold setHours in *; unfold setHours4 in *;
  unfold getHours, getMinutes, getSeconds, getMilliseconds, localDay in *;
  unfold UTC, LocalTime in *;
  unfold ES.MakeDate, ES.MakeTime, ES.HourFromTime, ES.MinFromTime,
    ES.SecFromTime, ES.msFromTime, ES.Day, ES.TimeWithinDay in *;
  unfold ES.msPerDay, ES.msPerHour, ES.msPerMinute, ES.msPerSecond in *.

Ltac time_arith := unfold_time; Z.div_mod_to_equations; lia.


(** [setHours] keeps the local day when the clock time given is one of a
    day. *)
Lemma localDay_setHours4 (t hour min sec ms : Z) :
  0 <= ES.MakeTime hour min sec ms < ES.msPerDay ->
  localDay (setHours4 t hour min sec ms) = localDay t.
Proof. time_arith. Qed.

Lemma localDay_setHours (t hour : Z) :
  0 <= hour < 24 -> localDay (setHours t hour 0 0) = localDay t.
Proof. time_arith. Qed.

(** Clock fields of an instant given by its day and clock time. *)
Lemma HourFromTime_MakeDate (d hour min sec ms : Z) :
  0 <= hour < 24 ->
  0 <= min * ES.msPerMinute + sec * ES.msPerSecond + ms < ES.msPerHour ->
  ES.HourFromTime (ES.MakeDate d (ES.MakeTime hour min sec ms)) = hour.
Proof.
  intros Hh Hr. unfold ES.HourFromTime, ES.MakeDate, ES.MakeTime in *.
  unfold ES.msPerDay, ES.msPerHour, ES.msPerMinute, ES.msPerSecond in *.
  rewrite <- (Z.div_unique _ 3600000 (24 * d + hour)
                (min * 60000 + sec * 1000 + ms)) by lia.
  symmetry. apply (Z.mod_unique _ 24 d hour); lia.
Qed.

Lemma MinFromTime_MakeDate (d hour min sec ms : Z) :
  0 <= min < 60 -> 0 <= sec * ES.msPerSecond + ms < ES.msPerMinute ->
  ES.MinFromTime (ES.MakeDate d (ES.MakeTime hour min sec ms)) = min.
Proof.
  intros Hm Hr. unfold ES.MinFromTime, ES.MakeDate, ES.MakeTime in *.
  unfold ES.msPerDay, ES.msPerHour, ES.msPerMinute, ES.msPerSecond in *.
  rewrite <- (Z.div_unique _ 60000 (60 * (24 * d + hour) + min)
                (sec * 1000 + ms)) by lia.
  symmetry. apply (Z.mod_unique _ 60 (24 * d + hour) min); lia.
Qed.

Lemma SecFromTime_MakeDate (d hour min sec ms : Z) :
  0 <= sec < 60 -> 0 <= ms < ES.msPerSecond ->
  ES.SecFromTime (ES.MakeDate d (ES.MakeTime hour min sec ms)) = sec.
Proof.
  intros Hs Hr. unfold ES.SecFromTime, ES.MakeDate, ES.MakeTime in *.
  unfold ES.msPerDay, ES.msPerHour, ES.msPerMinute, ES.msPerSecond in *.
  rewrite <- (Z.div_unique _ 1000
                (60 * (60 * (24 * d + hour) + min) + sec) ms) by lia.
  symmetry. apply (Z.mod_unique _ 60 (60 * (24 * d + hour) + min) sec); lia.
Qed.

Lemma msFromTime_range (t : Z) : 0 <= ES.msFromTime t < ES.msPerSecond.
Proof. unfold ES.msFromTime, ES.msPerSecond. apply Z.mod_pos_bound. lia. Qed.

Ltac clock_bounds :=
  match goal with
  | |- context [ES.msFromTime ?t] =>
      pose proof (msFromTime_range t);
      unfold ES.msPerHour, ES.msPerMinute, ES.msPerSecond in *; lia
  end.

Lemma getHours_setHours (t hour : Z) :
  0 <= hour < 24 -> getHours (setHours t hour 0 0) = hour.
Proof.
  intros Hh. unfold getHours, setHours, setHours4. rewrite LocalTime_UTC.
  apply HourFromTime_MakeDate; [assumption|clock_bounds].
Qed.

Lemma getMinutes_setHours (t hour : Z) :
  getMinutes (setHours t hour 0 0) = 0.
Proof.
  unfold getMinutes, setHours, setHours4. rewrite LocalTime_UTC.
  apply MinFromTime_MakeDate; [lia|clock_bounds].
Qed.

Lemma getSeconds_setHours (t hour : Z) :
  getSeconds (setHours t hour 0 0) = 0.
Proof.
  unfold getSeconds, setHours, setHours4. rewrite LocalTime_UTC.
  apply SecFromTime_MakeDate; [lia|apply msFromTime_range].
Qed.

Lemma getHours_range (t : Z) : 0 <= getHours t < 24.
Proof. time_arith. Qed.

(** The clamp [setHours(23, 59, 59)] is the last second of the local day of
    the date it is applied to. *)
Lemma setHours_235959 (t : Z) :
  localDay (setHours t 23 59 59) = localDay t /\
  getHours (setHours t 23 59 59) = 23 /\
  getMinutes (setHours t 23 59 59) = 59 /\
  getSeconds (setHours t 23 59 59) = 59.
Proof.
  split; [time_arith|].
  unfold getHours, getMinutes, getSeconds, setHours, setHours4.
  rewrite LocalTime_UTC. repeat split.
  - apply HourFromTime_MakeDate; [lia|clock_bounds].
  - apply MinFromTime_MakeDate; [lia|clock_bounds].
  - apply SecFromTime_MakeDate; [lia|apply msFromTime_range].
Qed.

(** Clamping a date that lies on a later day than [s] keeps it after [s]. *)
Lemma clamp_after (s e : Z) :
  s < e -> localDay e <> localDay s -> s < setHours e 23 59 59.
Proof. time_arith. Qed.

(** The clamp is applied to a date on another day than [s], and stays on
    the day of that date: it never yields an instant of the day of [s]. *)
Lemma clamp_leaves_start_day (s e : Z) :
  (getDate e =? getDate s) = false ->
  localDay (setHours e 23 59 59) <> localDay s.
Proof.
  intros H. rewrite (proj1 (setHours_235959 e)). apply getDate_differs, H.
Qed.

(** In zones at or east of UTC, UTC midnight of a day key falls on that
    day; west of UTC it falls on the day before. *)
Lemma format_newDate_east (day : DayKey) :
  0 <= LocalTZA < ES.msPerDay -> format_yyyy_MM_dd (newDate day) = day.
Proof. time_arith. Qed.

Lemma format_newDate_west (day : DayKey) :
  - ES.msPerDay <= LocalTZA < 0 -> format_yyyy_MM_dd (newDate day) = day - 1.
Proof. time_arith. Qed.

(** ** Lists updated or filtered by identifier *)

Section ById.
Context {A : Type} (ident : A -> string).

Lemma map_unknownId (id : string) (f : A -> A) (l : list A) :
  unknownId ident id l ->
  map (fun x => if (ident x =? id)%string then f x else x) l = l.
Proof.
  intros H. induction l as [|x l IH]; simpl; [reflexivity|].
  destruct (String.eqb_spec (ident x) id) as [E|_].
  - exfalso. apply (H x); [left; reflexivity|exact E].
  - f_equal. apply IH. intros y Hy. apply H. right. exact Hy.
Qed.

Lemma filter_unknownId (id : string) (l : list A) :
  unknownId ident id l ->
  filter (fun x => negb (ident x =? id)%string) l = l.
Proof.
  intros H. induction l as [|x l IH]; simpl; [reflexivity|].
  destruct (String.eqb_spec (ident x) id) as [E|_]; simpl.
  - exfalso. apply (H x); [left; reflexivity|exact E].
  - f_equal. apply IH. intros y Hy. apply H. right. exact Hy.
Qed.

Lemma nth_error_map_update (id : string) (f : A -> A) (l : list A)
  (i : nat) (x : A) :
  nth_error l i = Some x ->
  nth_error (map (fun x => if (ident x =? id)%string then f x else x) l) i
  = Some (if (ident x =? id)%string then f x else x).
Proof. intros H. rewrite nth_error_map, H. reflexivity. Qed.

(** An update that keeps identifiers commutes with the search by
    identifier. *)
Lemma find_map_update (id id' : string) (f : A -> A) (l : list A) :
  (forall x, ident (f x) = ident x) ->
  find (fun x => (ident x =? id)%string)
       (map (fun x => if (ident x =? id')%string then f x else x) l)
  = option_map (fun x => if (ident x =? id')%string then f x else x)
               (find (fun x => (ident x =? id)%string) l).
Proof.
  intros Hf. induction l as [|x l IH]; simpl; [reflexivity|].
  assert (E : ident (if (ident x =? id')%string then f x else x) = ident x)
    by (destruct (ident x =? id')%string; [apply Hf|reflexivity]).
  rewrite E. destruct (ident x =? id)%string; [reflexivity|exact IH].
Qed.

End ById.

Lemma findTimeBlock_id (id : string) (blocks : list TimeBlock.t)
  (b : TimeBlock.t) :
  findTimeBlock id blocks = Some b -> In b blocks /\ TimeBlock.id b = id.
Proof.
  intros H. apply find_some in H. destruct H as [Hin E].
  split; [exact Hin|]. apply String.eqb_eq. exact E.
Qed.

Lemma findTimeBlock_unknown (id : string) (blocks : list TimeBlock.t) :
  findTimeBlock id blocks = None <-> unknownId TimeBlock.id id blocks.
Proof.
  split.
  - intros H x Hx E. pose proof (find_none _ _ H x Hx) as N. simpl in N.
    apply String.eqb_neq in N. contradiction.
  - intros H. destruct (findTimeBlock id blocks) as [b|] eqn:E;
      [|reflexivity].
    apply findTimeBlock_id in E. destruct E as [Hin E].
    exfalso. exact (H b Hin E).
Qed.

(** ** The store *)

(** C10. The time-block actions leave the tasks and the study sessions as
    they are; the task and the session actions leave the time blocks as
    they are. *)
Theorem actions_frame (state : StudyFlowState) (id : string) (now : Z)
  (newBlock : TimeBlock.fresh) (blockUpdates : TimeBlock.updates)
  (newTask : Task.fresh) (taskUpdates : Task.updates)
  (newSession : StudySession.fresh) (sessionUpdates : StudySession.updates) :
  (tasks (snd (addTimeBlock id newBlock state)) = tasks state /\
   studySessions (snd (addTimeBlock id newBlock state))
   = studySessions state) /\
  (tasks (updateTimeBlock id blockUpdates state) = tasks state /\
   studySessions (updateTimeBlock id blockUpdates state)
   = studySessions state) /\
  (tasks (deleteTimeBlock id state) = tasks state /\
   studySessions (deleteTimeBlock id state) = studySessions state) /\
  timeBlocks (snd (addTask id now newTask state)) = timeBlocks state /\
  timeBlocks (updateTask id taskUpdates state) = timeBlocks state /\
  timeBlocks (completeTask id state) = timeBlocks state /\
  timeBlocks (deleteTask id state) = timeBlocks state /\
  timeBlocks (snd (addStudySession id newSession state))
  = timeBlocks state /\
  timeBlocks (updateStudySession id sessionUpdates state)
  = timeBlocks state /\
  timeBlocks (deleteStudySession id state) = timeBlocks state.
Proof. repeat split. Qed.

Lemma state_eq (state : StudyFlowState) (ts : list Task.t)
  (bs : list TimeBlock.t) (ss : list StudySession.t) :
  ts = tasks state -> bs = timeBlocks state -> ss = studySessions state ->
  mkState ts bs ss = state.
Proof. intros -> -> ->. destruct state. reflexivity. Qed.

(** C8. An update or a delete with an identifier that no record of the
    collection has returns the state it was given, and being a total
    function it has no failure to report; an update with an identifier that
    is present leaves every record at its place, and a record that has the
    identifier keeps it and gets, field by field, the value supplied when
    one is supplied and its old value otherwise; the other records are as
    they were. *)
Theorem update_delete_by_id (id : string) (state : StudyFlowState)
  (updates : TimeBlock.updates) (taskUpdates : Task.updates)
  (sessionUpdates : StudySession.updates) :
  (unknownId TimeBlock.id id (timeBlocks state) ->
   updateTimeBlock id updates state = state /\
   deleteTimeBlock id state = state) /\
  (unknownId Task.id id (tasks state) ->
   updateTask id taskUpdates state = state /\
   completeTask id state = state /\
   deleteTask id state = state) /\
  (unknownId StudySession.id id (studySessions state) ->
   updateStudySession id sessionUpdates state = state /\
   deleteStudySession id state = state) /\
  (forall (i : nat) (block : TimeBlock.t),
      nth_error (timeBlocks state) i = Some block ->
      exists block',
        nth_error (timeBlocks (updateTimeBlock id updates state)) i
        = Some block' /\
        (TimeBlock.id block <> id -> block' = block) /\
        (TimeBlock.id block = id ->
         TimeBlock.id block' = id /\
         TimeBlock.taskId block'
         = match TimeBlock.u_taskId updates with
           | Some supplied => supplied
           | None => TimeBlock.taskId block
           end /\
         TimeBlock.title block'
         = match TimeBlock.u_title updates with
           | Some supplied => supplied
           | None => TimeBlock.title block
           end /\
         TimeBlock.start block'
         = match TimeBlock.u_start updates with
           | Some supplied => supplied
           | None => TimeBlock.start block
           end /\
         TimeBlock.end_ block'
         = match TimeBlock.u_end updates with
           | Some supplied => supplied
           | None => TimeBlock.end_ block
           end /\
         TimeBlock.day block'
         = match TimeBlock.u_day updates with
           | Some supplied => supplied
           | None => TimeBlock.day block
           end /\
         TimeBlock.color block'
         = match TimeBlock.u_color updates with
           | Some supplied => supplied
           | None => TimeBlock.color block
           end)) /\
  List.length (timeBlocks (updateTimeBlock id updates state))
  = List.length (timeBlocks state).
Proof.
  repeat apply conj.
  - intros H. split; apply state_eq; simpl; try reflexivity.
    + apply map_unknownId, H.
    + apply filter_unknownId, H.
  - intros H. repeat split; apply state_eq; simpl; try reflexivity.
    + apply map_unknownId, H.
    + apply map_unknownId, H.
    + apply filter_unknownId, H.
  - intros H. split; apply state_eq; simpl; try reflexivity.
    + apply map_unknownId, H.
    + apply filter_unknownId, H.
  - intros i block Hi.
    eexists. split.
    + simpl. apply (nth_error_map_update TimeBlock.id), Hi.
    + destruct (String.eqb_spec (TimeBlock.id block) id) as [E|N].
      * split; [intros C; contradiction|]. intros _.
        cbn [spreadTimeBlock TimeBlock.id TimeBlock.taskId TimeBlock.title
             TimeBlock.start TimeBlock.end_ TimeBlock.day TimeBlock.color].
        split; [exact E|]. unfold spread. repeat split.
      * split; [reflexivity|]. intros C; contradiction.
  - simpl. apply length_map.
Qed.

(** ** Drag end *)

Lemma findTimeBlock_updateTimeBlock (id id' : string)
  (updates : TimeBlock.updates) (state : StudyFlowState) :
  findTimeBlock id (timeBlocks (updateTimeBlock id' updates state))
  = option_map (fun block =>
                  if (TimeBlock.id block =? id')%string
                  then spreadTimeBlock block updates else block)
               (findTimeBlock id (timeBlocks state)).
Proof.
  apply (find_map_update TimeBlock.id). reflexivity.
Qed.

(** What [handleDragEnd] does when the drag ends on another block. *)
Lemma handleDragEnd_block (event : DragEndEvent) (state : StudyFlowState)
  (a b : TimeBlock.t) :
  dropsOnBlock event state a b ->
  handleDragEnd event state
  = updateTimeBlock (TimeBlock.id b)
      (TimeBlock.mkUpdates None None
         (Some (TimeBlock.start a))
         (Some (TimeBlock.start a + TimeBlock.duration b))
         (Some (TimeBlock.day a)) None)
      (updateTimeBlock (TimeBlock.id a)
         (TimeBlock.mkUpdates None None
            (Some (TimeBlock.start b))
            (Some (TimeBlock.start b + TimeBlock.duration a))
            (Some (TimeBlock.day b)) None)
         state).
Proof.
  unfold dropsOnBlock, handleDragEnd.
  destruct (over event) as [o|]; [|contradiction].
  intros (Hneq & Hsort & Ha & Hb).
  apply String.eqb_neq in Hneq. rewrite Hneq, Hsort, Ha, Hb. reflexivity.
Qed.

(** What [handleDragEnd] does when the drag ends on a cell. *)
Lemma handleDragEnd_cell (event : DragEndEvent) (state : StudyFlowState)
  (a : TimeBlock.t) (day : DayKey) (hour : Z) :
  dropsOnCell event state a day hour ->
  let newStart := setHours (newDate day) hour 0 0 in
  let newEnd := newStart + TimeBlock.duration a in
  handleDragEnd event state
  = updateTimeBlock (TimeBlock.id a)
      (TimeBlock.mkUpdates None None
         (Some newStart)
         (Some (if negb (getDate newEnd =? getDate newStart)
                then setHours newEnd 23 59 59 else newEnd))
         (Some day) None)
      state.
Proof.
  unfold dropsOnCell, handleDragEnd.
  destruct (over event) as [o|]; [|contradiction].
  intros (Hbranch & Hcell & Ha).
  assert (E : negb (active_id event =? over_id o)%string && overSortable o
              = false).
  { destruct Hbranch as [E|E].
    - apply String.eqb_eq in E. rewrite E. reflexivity.
    - rewrite E. apply andb_false_r. }
  rewrite E, Hcell, Ha. reflexivity.
Qed.

(** C7. A block dropped onto itself: the target has the identifier of the
    moved block and, being a block, carries no cell coordinates. The state
    is returned as it was given. *)
Theorem drop_on_itself (event : DragEndEvent) (state : StudyFlowState)
  (o : Over) :
  over event = Some o ->
  over_id o = active_id event ->
  overCell o = None ->
  handleDragEnd event state = state.
Proof.
  intros Ho Hid Hcell. unfold handleDragEnd. rewrite Ho, Hid, Hcell.
  rewrite String.eqb_refl. reflexivity.
Qed.

(** The two blocks after a drag that ends on another block. *)
Lemma swapped_blocks (event : DragEndEvent) (state : StudyFlowState)
  (a b : TimeBlock.t) :
  dropsOnBlock event state a b ->
  findTimeBlock (TimeBlock.id a) (timeBlocks (handleDragEnd event state))
  = Some (spreadTimeBlock a
            (TimeBlock.mkUpdates None None
               (Some (TimeBlock.start b))
               (Some (TimeBlock.start b + TimeBlock.duration a))
               (Some (TimeBlock.day b)) None)) /\
  findTimeBlock (TimeBlock.id b) (timeBlocks (handleDragEnd event state))
  = Some (spreadTimeBlock b
            (TimeBlock.mkUpdates None None
               (Some (TimeBlock.start a))
               (Some (TimeBlock.start a + TimeBlock.duration b))
               (Some (TimeBlock.day a)) None)).
Proof.
  intros H. rewrite (handleDragEnd_block _ _ _ _ H).
  unfold dropsOnBlock in H. destruct (over event) as [o|]; [|contradiction].
  destruct H as (Hneq & _ & Ha & Hb).
  destruct (findTimeBlock_id _ _ _ Ha) as [_ Ea].
  destruct (findTimeBlock_id _ _ _ Hb) as [_ Eb].
  assert (Hab : (TimeBlock.id a =? TimeBlock.id b)%string = false)
    by (apply String.eqb_neq; congruence).
  assert (Hba : (TimeBlock.id b =? TimeBlock.id a)%string = false)
    by (apply String.eqb_neq; congruence).
  rewrite <- Ea in Ha. rewrite <- Eb in Hb.
  rewrite !findTimeBlock_updateTimeBlock, Ha, Hb. cbn [option_map].
  rewrite !String.eqb_refl, !Hba. cbn [spreadTimeBlock TimeBlock.id].
  rewrite Hab, String.eqb_refl. split; reflexivity.
Qed.

(** C3. A drag that ends on another block exchanges the two starts and the
    two days, and gives each block the end that keeps its own duration. *)
Theorem swap_symmetry (event : DragEndEvent) (state : StudyFlowState)
  (a b : TimeBlock.t) :
  dropsOnBlock event state a b ->
  exists a' b',
    findTimeBlock (TimeBlock.id a) (timeBlocks (handleDragEnd event state))
    = Some a' /\
    findTimeBlock (TimeBlock.id b) (timeBlocks (handleDragEnd event state))
    = Some b' /\
    TimeBlock.start a' = TimeBlock.start b /\
    TimeBlock.start b' = TimeBlock.start a /\
    TimeBlock.day a' = TimeBlock.day b /\
    TimeBlock.day b' = TimeBlock.day a /\
    TimeBlock.end_ a' = TimeBlock.start b + TimeBlock.duration a /\
    TimeBlock.end_ b' = TimeBlock.start a + TimeBlock.duration b /\
    TimeBlock.duration a' = TimeBlock.duration a /\
    TimeBlock.duration b' = TimeBlock.duration b.
Proof.
  intros H. destruct (swapped_blocks _ _ _ _ H) as [Ha' Hb'].
  do 2 eexists. split; [exact Ha'|]. split; [exact Hb'|].
  unfold TimeBlock.duration. cbn. repeat split; lia.
Qed.

(** C2. A move keeps the duration of the moved block when the drag ends on
    another block, and when it ends on a cell and the new start plus the
    duration falls on the calendar day of the new start. *)
Theorem move_keeps_duration (event : DragEndEvent) (state : StudyFlowState)
  (a : TimeBlock.t) :
  (exists b, dropsOnBlock event state a b) \/
  (exists day hour,
      dropsOnCell event state a day hour /\
      localDay (setHours (newDate day) hour 0 0 + TimeBlock.duration a)
      = localDay (setHours (newDate day) hour 0 0)) ->
  exists a',
    findTimeBlock (TimeBlock.id a) (timeBlocks (handleDragEnd event state))
    = Some a' /\
    TimeBlock.duration a' = TimeBlock.duration a.
Proof.
  intros [[b H]|(day & hour & H & Hday)].
  - destruct (swapped_blocks _ _ _ _ H) as [Ha' _].
    eexists. split; [exact Ha'|].
    unfold TimeBlock.duration. cbn. lia.
  - rewrite (handleDragEnd_cell _ _ _ _ _ H).
    unfold dropsOnCell in H. destruct (over event) as [o|]; [|contradiction].
    destruct H as (_ & _ & Ha).
    destruct (findTimeBlock_id _ _ _ Ha) as [_ Ea].
    rewrite <- Ea in Ha.
    rewrite findTimeBlock_updateTimeBlock, Ha.
    cbn [option_map]. rewrite String.eqb_refl.
    eexists. split; [reflexivity|].
    rewrite (getDate_localDay _ _ Hday), Z.eqb_refl.
    unfold TimeBlock.duration.
    cbn [spreadTimeBlock spread TimeBlock.start TimeBlock.end_
         TimeBlock.u_start TimeBlock.u_end negb].
    lia.
Qed.

(** What a drag that ends on the cell [(day, hour)] does in every zone:
    the moved block gets the start [new Date(day)] with the local hour set
    to [hour] and the minutes and seconds set to zero, which lies on the
    local day of [new Date(day)], the day of the key in a zone at or east
    of UTC; the end is the new start plus the duration when that falls on
    the day of the new start, and has the clock time 23:59:59 when the
    clamp applies; the day is the key of the cell; identifier, title,
    colour and task are kept. *)
Theorem move_to_cell (event : DragEndEvent) (state : StudyFlowState)
  (a : TimeBlock.t) (day : DayKey) (hour : Z) :
  dropsOnCell event state a day hour ->
  0 <= hour < 24 ->
  exists a',
    findTimeBlock (TimeBlock.id a) (timeBlocks (handleDragEnd event state))
    = Some a' /\
    TimeBlock.start a' = setHours (newDate day) hour 0 0 /\
    getHours (TimeBlock.start a') = hour /\
    getMinutes (TimeBlock.start a') = 0 /\
    getSeconds (TimeBlock.start a') = 0 /\
    format_yyyy_MM_dd (TimeBlock.start a') = format_yyyy_MM_dd (newDate day) /\
    (0 <= LocalTZA < ES.msPerDay ->
     format_yyyy_MM_dd (TimeBlock.start a') = day) /\
    (localDay (TimeBlock.start a' + TimeBlock.duration a)
     = localDay (TimeBlock.start a') ->
     TimeBlock.end_ a' = TimeBlock.start a' + TimeBlock.duration a) /\
    (getDate (TimeBlock.start a' + TimeBlock.duration a)
     <> getDate (TimeBlock.start a') ->
     getHours (TimeBlock.end_ a') = 23 /\
     getMinutes (TimeBlock.end_ a') = 59 /\
     getSeconds (TimeBlock.end_ a') = 59) /\
    TimeBlock.day a' = day /\
    TimeBlock.id a' = TimeBlock.id a /\
    TimeBlock.title a' = TimeBlock.title a /\
    TimeBlock.color a' = TimeBlock.color a /\
    TimeBlock.taskId a' = TimeBlock.taskId a.
Proof.
  intros H Hh. rewrite (handleDragEnd_cell _ _ _ _ _ H).
  unfold dropsOnCell in H. destruct (over event) as [o|]; [|contradiction].
  destruct H as (_ & _ & Ha).
  destruct (findTimeBlock_id _ _ _ Ha) as [_ Ea].
  rewrite <- Ea in Ha.
  rewrite findTimeBlock_updateTimeBlock, Ha.
  cbn [option_map]. rewrite String.eqb_refl.
  eexists. split; [reflexivity|].
  cbn [spreadTimeBlock spread TimeBlock.start TimeBlock.end_ TimeBlock.day
       TimeBlock.id TimeBlock.title TimeBlock.color TimeBlock.taskId
       TimeBlock.u_start TimeBlock.u_end TimeBlock.u_day TimeBlock.u_title
       TimeBlock.u_color TimeBlock.u_taskId].
  split; [reflexivity|].
  split; [apply getHours_setHours, Hh|].
  split; [apply getMinutes_setHours|].
  split; [apply getSeconds_setHours|].
  split; [apply localDay_setHours, Hh|].
  split.
  { intros Hz. unfold format_yyyy_MM_dd. rewrite localDay_setHours by exact Hh.
    apply format_newDate_east, Hz. }
  split.
  { intros Hday. rewrite (getDate_localDay _ _ Hday), Z.eqb_refl.
    reflexivity. }
  split.
  { intros Hdate. apply Z.eqb_neq in Hdate. rewrite Hdate.
    cbn [negb]. apply setHours_235959. }
  repeat split.
Qed.

(** ** The invariant [end > start] *)

Lemma timeBlocks_addTimeBlock (id : string) (timeBlock : TimeBlock.fresh)
  (state : StudyFlowState) :
  timeBlocks (snd (addTimeBlock id timeBlock state))
  = timeBlocks state ++
    [TimeBlock.mk id (TimeBlock.f_taskId timeBlock)
                  (TimeBlock.f_title timeBlock) (TimeBlock.f_start timeBlock)
                  (TimeBlock.f_end timeBlock) (TimeBlock.f_day timeBlock)
                  (TimeBlock.f_color timeBlock)].
Proof. reflexivity. Qed.

Lemma wellFormed_updateTimeBlock (id : string) (s e : Z)
  (d : option DayKey) (state : StudyFlowState) :
  wellFormed state -> s < e ->
  wellFormed (updateTimeBlock id
                (TimeBlock.mkUpdates None None (Some s) (Some e) d None)
                state).
Proof.
  intros Hwf Hse b Hin. simpl in Hin. apply in_map_iff in Hin.
  destruct Hin as (x & <- & Hx).
  destruct (TimeBlock.id x =? id)%string; [exact Hse|apply Hwf, Hx].
Qed.

(** The end the dialog computes before the clamp is after the start. *)
Lemma setHours_later (t duration : Z) :
  1 <= duration -> t < setHours t (getHours t + duration) 0 0.
Proof.
  intros Hd. unfold setHours, setHours4, getHours, UTC, ES.MakeDate,
    ES.MakeTime, ES.HourFromTime, ES.Day, ES.msFromTime.
  set (L := LocalTime t). replace t with (L - LocalTZA)
    by (unfold L, LocalTime; lia).
  unfold ES.msPerDay, ES.msPerHour, ES.msPerMinute, ES.msPerSecond.
  pose proof (Z.mod_pos_bound L 1000 ltac:(lia)).
  pose proof (Z.mod_pos_bound (L / 3600000) 24 ltac:(lia)).
  assert (E : L / 86400000 = (L / 3600000) / 24)
    by (rewrite Z.div_div by lia; reflexivity).
  rewrite E.
  pose proof (Z.div_mod (L / 3600000) 24 ltac:(lia)).
  pose proof (Z.div_mod L 3600000 ltac:(lia)).
  pose proof (Z.mod_pos_bound L 3600000 ltac:(lia)).
  nia.
Qed.

(** The end after the optional clamp is after the start as soon as the end
    before it is. *)
Lemma clamped_end_after (s e : Z) :
  s < e ->
  s < (if negb (getDate e =? getDate s) then setHours e 23 59 59 else e).
Proof.
  intros Hse. destruct (getDate e =? getDate s) eqn:E; simpl.
  - exact Hse.
  - apply clamp_after; [exact Hse|]. apply getDate_differs, E.
Qed.

(** When every block of the store ends after it starts, this is still
    so after the dialog has added a block with a duration of at least one
    hour, and after any drag. *)
Theorem end_after_start_kept (state : StudyFlowState) :
  wellFormed state ->
  (forall (id : string) (selectedDay : DayKey) (selectedHour : Z)
          (title : string) (duration : Z) (color : string),
      1 <= duration ->
      wellFormed
        (submitAdd id selectedDay selectedHour title duration color state))
  /\
  (forall event : DragEndEvent, wellFormed (handleDragEnd event state)).
Proof.
  intros Hwf. split.
  - intros id selectedDay selectedHour title duration color Hd.
    unfold submitAdd, handleAdd.
    destruct (negb (truthy (trim title))); [exact Hwf|].
    intros b Hin. rewrite timeBlocks_addTimeBlock in Hin.
    apply in_app_or in Hin.
    destruct Hin as [Hin|[<-|[]]]; [apply Hwf, Hin|].
    cbn [TimeBlock.start TimeBlock.end_ TimeBlock.f_start TimeBlock.f_end].
    apply clamped_end_after, setHours_later, Hd.
  - intros event. unfold handleDragEnd.
    destruct (over event) as [o|]; [|exact Hwf].
    destruct (negb (active_id event =? over_id o)%string && overSortable o).
    + destruct (findTimeBlock (active_id event) (timeBlocks state))
        as [a|] eqn:Ha; [|exact Hwf].
      destruct (findTimeBlock (over_id o) (timeBlocks state))
        as [b|] eqn:Hb; [|exact Hwf].
      pose proof (Hwf a (proj1 (findTimeBlock_id _ _ _ Ha))).
      pose proof (Hwf b (proj1 (findTimeBlock_id _ _ _ Hb))).
      apply wellFormed_updateTimeBlock;
        [apply wellFormed_updateTimeBlock; [exact Hwf|]|]; lia.
    + destruct (overCell o) as [[day hour]|]; [|exact Hwf].
      destruct (findTimeBlock (active_id event) (timeBlocks state))
        as [a|] eqn:Ha; [|exact Hwf].
      pose proof (Hwf a (proj1 (findTimeBlock_id _ _ _ Ha))).
      apply wellFormed_updateTimeBlock; [exact Hwf|].
      apply clamped_end_after. lia.
Qed.

(** ** Cell resolver *)

Lemma HOURS_range (hour : Z) : In hour HOURS <-> 0 <= hour < 24.
Proof.
  split.
  - intros H. unfold HOURS in H. cbn [In] in H.
    repeat (destruct H as [<-|H]; [lia|]). contradiction.
  - intros H. unfold HOURS. cbn [In].
    assert (E : hour = 0 \/ hour = 1 \/ hour = 2 \/ hour = 3 \/ hour = 4 \/
                hour = 5 \/ hour = 6 \/ hour = 7 \/ hour = 8 \/ hour = 9 \/
                hour = 10 \/ hour = 11 \/ hour = 12 \/ hour = 13 \/
                hour = 14 \/ hour = 15 \/ hour = 16 \/ hour = 17 \/
                hour = 18 \/ hour = 19 \/ hour = 20 \/ hour = 21 \/
                hour = 22 \/ hour = 23) by lia.
    repeat (destruct E as [->|E]; [tauto|]). subst. tauto.
Qed.

(** The cell offers the add dialog exactly when no block starts in it and
    none spans it. *)
Lemma cellBody_empty (day : DayKey) (hour : Z)
  (timeBlocks : list TimeBlock.t) :
  cellBody day hour timeBlocks = AddDialog day hour <->
  startingBlocksForCell day hour timeBlocks = [] /\
  spanningBlocks day hour timeBlocks = [].
Proof.
  unfold cellBody.
  destruct (startingBlocksForCell day hour timeBlocks);
    destruct (spanningBlocks day hour timeBlocks);
    split; try intros [? ?]; try discriminate; try split; reflexivity.
Qed.

Lemma getHours_currentHourStart (day : DayKey) (hour : Z) :
  0 <= hour < 24 -> getHours (currentHourStart day hour) = hour.
Proof.
  intros Hh. unfold getHours, currentHourStart, setHours4.
  rewrite LocalTime_UTC.
  apply HourFromTime_MakeDate; [assumption|].
  unfold ES.msPerHour, ES.msPerMinute, ES.msPerSecond. lia.
Qed.

Lemma currentHourStart_lt (day : DayKey) (hour hour' : Z) :
  currentHourStart day hour < currentHourStart day hour' <-> hour < hour'.
Proof. time_arith. Qed.



Lemma startingBlocksForCell_In (day : DayKey) (hour : Z)
  (timeBlocks : list TimeBlock.t) (block : TimeBlock.t) :
  In block (startingBlocksForCell day hour timeBlocks) <->
  In block timeBlocks /\ getHours (TimeBlock.start block) = hour.
Proof.
  unfold startingBlocksForCell, blocksForCell, isFirstOccurrence.
  rewrite !filter_In, orb_true_iff, Z.eqb_eq. tauto.
Qed.

Lemma spanningBlocks_In (day : DayKey) (hour : Z)
  (timeBlocks : list TimeBlock.t) (block : TimeBlock.t) :
  In block (spanningBlocks day hour timeBlocks) <->
  In block timeBlocks /\
  getHours (TimeBlock.start block) <> hour /\
  TimeBlock.start block < currentHourStart day hour < TimeBlock.end_ block.
Proof.
  unfold spanningBlocks, blocksForCell.
  rewrite !filter_In, orb_true_iff, andb_true_iff, negb_true_iff.
  rewrite Z.eqb_eq, Z.eqb_neq, Z.ltb_lt, Z.gtb_ltb, Z.ltb_lt. tauto.
Qed.


(** West of UTC they lie on the day before. *)
Lemma currentHourStart_west (day : DayKey) (hour : Z) :
  - ES.msPerDay <= LocalTZA < 0 ->
  currentHourStart day hour = localInstant (day - 1) hour.
Proof.
  intros Hz. unfold currentHourStart, setHours4, localInstant.
  do 2 f_equal. exact (format_newDate_west day Hz).
Qed.

(** What the local calendar and clock show at [localInstant day hour]. *)
Lemma localInstant_clock (day : DayKey) (hour : Z) :
  0 <= hour < 24 ->
  format_yyyy_MM_dd (localInstant day hour) = day /\
  getHours (localInstant day hour) = hour /\
  getMinutes (localInstant day hour) = 0 /\
  getSeconds (localInstant day hour) = 0.
Proof.
  intros Hh.
  unfold format_yyyy_MM_dd, localDay, getHours, getMinutes, getSeconds,
    localInstant.
  rewrite LocalTime_UTC.
  split; [|split; [|split]].
  - unfold ES.Day, ES.MakeDate, ES.MakeTime, ES.msPerDay, ES.msPerHour,
      ES.msPerMinute, ES.msPerSecond.
    symmetry. apply (Z.div_unique _ 86400000 day (hour * 3600000)); lia.
  - apply HourFromTime_MakeDate; [exact Hh|].
    unfold ES.msPerHour, ES.msPerMinute, ES.msPerSecond. lia.
  - apply MinFromTime_MakeDate; [lia|].
    unfold ES.msPerMinute, ES.msPerSecond. lia.
  - apply SecFromTime_MakeDate; [lia|]. unfold ES.msPerSecond. lia.
Qed.


Lemma starts_before_cell (day : DayKey) (hour t : Z) :
  0 <= hour < 24 ->
  localDay t = localDay (newDate day) ->
  t < currentHourStart day hour -> getHours t <> hour.
Proof.
  intros Hh Hday Hlt.
  assert (E : LocalTime t < localDay t * ES.msPerDay + hour * ES.msPerHour)
    by (rewrite Hday; revert Hlt; clear; time_arith).
  clear Hday Hlt. unfold getHours, ES.HourFromTime, localDay, ES.Day in *.
  set (L := LocalTime t) in *.
  unfold ES.msPerDay, ES.msPerHour in *.
  assert (D : L / 86400000 = (L / 3600000) / 24)
    by (rewrite Z.div_div by lia; reflexivity).
  rewrite D in E.
  pose proof (Z.div_mod (L / 3600000) 24 ltac:(lia)).
  pose proof (Z.div_mod L 3600000 ltac:(lia)).
  pose proof (Z.mod_pos_bound L 3600000 ltac:(lia)).
  nia.
Qed.

(** For a block that starts on the day of the cell, starting before the
    hour boundary already means starting at another hour. *)
Lemma spanning_same_day (day : DayKey) (hour : Z)
  (timeBlocks : list TimeBlock.t) (block : TimeBlock.t) :
  0 <= hour < 24 ->
  localDay (TimeBlock.start block) = localDay (newDate day) ->
  In block (spanningBlocks day hour timeBlocks) <->
  In block timeBlocks /\
  TimeBlock.start block < currentHourStart day hour < TimeBlock.end_ block.
Proof.
  intros Hh Hday.
  rewrite spanningBlocks_In.
  pose proof (starts_before_cell day hour (TimeBlock.start block) Hh Hday).
  tauto.
Qed.

(** ** The end-of-day clamp of the add dialog *)

Lemma Some_eq {A : Type} (x y : A) : Some x = Some y -> x = y.
Proof. intros [= E]. exact E. Qed.

(** Whenever [handleAdd] applies the clamp, the end it hands on is at
    23:59:59 of a day other than the day of the start. *)
Lemma handleAdd_clamped (selectedDay : DayKey) (selectedHour : Z)
  (title : string) (duration : Z) (color : string)
  (timeBlock : TimeBlock.fresh) :
  handleAdd selectedDay selectedHour title duration color = Some timeBlock ->
  let start := TimeBlock.f_start timeBlock in
  getDate (setHours start (getHours start + duration) 0 0) <> getDate start ->
  localDay (TimeBlock.f_end timeBlock) <> localDay start /\
  getHours (TimeBlock.f_end timeBlock) = 23 /\
  getMinutes (TimeBlock.f_end timeBlock) = 59 /\
  getSeconds (TimeBlock.f_end timeBlock) = 59.
Proof.
  unfold handleAdd. destruct (negb (truthy (trim title))); [discriminate|].
  intros E. apply Some_eq in E. subst timeBlock.
  cbn [TimeBlock.f_start TimeBlock.f_end]. intros Hdate.
  apply Z.eqb_neq in Hdate. rewrite Hdate. cbn [negb].
  split; [apply clamp_leaves_start_day, Hdate|apply setHours_235959].
Qed.

(** ** Week projection *)

Lemma format_addDays (t amount : Z) :
  format_yyyy_MM_dd (addDays t amount) = format_yyyy_MM_dd t + amount.
Proof. time_arith. Qed.

Lemma getDay_range (t : Z) : 0 <= getDay t < 7.
Proof. unfold getDay, ES.WeekDay. apply Z.mod_pos_bound. lia. Qed.

(** [startOfWeek] is local midnight of the Sunday on or before the date. *)
Lemma startOfWeek_spec (t : Z) :
  format_yyyy_MM_dd (startOfWeek t) = format_yyyy_MM_dd t - getDay t /\
  getDay (startOfWeek t) = 0 /\
  LocalTime (startOfWeek t) = format_yyyy_MM_dd (startOfWeek t) * ES.msPerDay.
Proof.
  pose proof (getDay_range t) as Hr.
  assert (E : format_yyyy_MM_dd (startOfWeek t)
              = format_yyyy_MM_dd t - getDay t).
  { unfold startOfWeek. cbv zeta. destruct (getDay t <? 0) eqn:N;
      [apply Z.ltb_lt in N; lia|].
    unfold format_yyyy_MM_dd. rewrite localDay_setHours4
      by (unfold ES.MakeTime, ES.msPerDay; lia).
    replace (getDate t - (0 + getDay t - 0)) with (getDate t + - getDay t)
      by lia.
    rewrite setDate_days. generalize (getDay t). intros w. time_arith. }
  split; [exact E|]. split.
  - revert E. unfold format_yyyy_MM_dd, localDay, getDay, ES.WeekDay.
    intros ->. unfold ES.WeekDay. Z.div_mod_to_equations. lia.
  - unfold startOfWeek, format_yyyy_MM_dd, localDay, setHours4.
    rewrite !LocalTime_UTC. unfold ES.MakeDate, ES.MakeTime, ES.Day.
    unfold ES.msPerDay. Z.div_mod_to_equations. lia.
Qed.

Lemma weekDates_keys (weekStart : Z) :
  let k := format_yyyy_MM_dd weekStart in
  weekDates weekStart = [k; k + 1; k + 2; k + 3; k + 4; k + 5; k + 6].
Proof.
  unfold weekDates, mapi, DAYS_OF_WEEK_INDICES. cbn [mapi_from].
  rewrite !format_addDays. cbv zeta.
  repeat (f_equal; try lia).
Qed.

(** X19. The next and the previous week: every key moves by seven
    days. *)
Lemma weekDates_navigation (weekStart : Z) :
  weekDates (handleNextWeek weekStart)
  = map (fun k => k + 7) (weekDates weekStart) /\
  weekDates (handlePrevWeek weekStart)
  = map (fun k => k - 7) (weekDates weekStart).
Proof.
  rewrite !weekDates_keys. unfold handleNextWeek, handlePrevWeek.
  rewrite !format_addDays. cbn [map]. split; repeat (f_equal; try lia).
Qed.

Lemma includes_In (keys : list DayKey) (day : DayKey) :
  includes keys day = true <-> In day keys.
Proof.
  unfold includes. rewrite existsb_exists. split.
  - intros (k & Hk & E). apply Z.eqb_eq in E. subst. exact Hk.
  - intros H. exists day. split; [exact H|apply Z.eqb_refl].
Qed.

(** X29. The cells of a column are given the blocks of the store that are
    filed under the day of the column. *)
Lemma columnTimeBlocks_day (weekStart : Z) (index : nat) (day : DayKey)
  (state : StudyFlowState) :
  nth_error (weekDates weekStart) index = Some day ->
  columnTimeBlocks weekStart index (timeBlocks state)
  = getTimeBlocksForDay day state.
Proof.
  intros Hnth. unfold columnTimeBlocks, weekTimeBlocks, getTimeBlocksForDay.
  rewrite Hnth. induction (timeBlocks state) as [|block l IH];
    [reflexivity|].
  cbn [filter].
  destruct (TimeBlock.day block =? day) eqn:E.
  - apply Z.eqb_eq in E.
    assert (I : includes (weekDates weekStart) (TimeBlock.day block) = true).
    { apply includes_In. rewrite E. eapply nth_error_In, Hnth. }
    rewrite I. cbn [filter]. rewrite (proj2 (Z.eqb_eq _ _) E), IH.
    reflexivity.
  - destruct (includes (weekDates weekStart) (TimeBlock.day block));
      [cbn [filter]; rewrite E|]; exact IH.
Qed.

(** C9. The week projection lists the keys of the seven days from the day
    of the week start on, in order, and keeps, in the order of the store,
    the blocks whose day key is one of them; for an anchor date the week
    start is the Sunday on or before it; the projection is a function of
    the week start and the collection. *)
Theorem week_projection (weekStart : Z) (timeBlocks : list TimeBlock.t) :
  let k := format_yyyy_MM_dd weekStart in
  weekDates weekStart = [k; k + 1; k + 2; k + 3; k + 4; k + 5; k + 6] /\
  weekTimeBlocks weekStart timeBlocks
  = filter (fun block =>
              (k <=? TimeBlock.day block) && (TimeBlock.day block <=? k + 6))
           timeBlocks /\
  (forall block,
      In block (weekTimeBlocks weekStart timeBlocks) <->
      In block timeBlocks /\ In (TimeBlock.day block) (weekDates weekStart)) /\
  (forall anchor,
      weekStart = startOfWeek anchor ->
      k = format_yyyy_MM_dd anchor - getDay anchor /\
      k <= format_yyyy_MM_dd anchor <= k + 6) /\
  (forall weekStart' timeBlocks',
      weekStart' = weekStart -> timeBlocks' = timeBlocks ->
      weekDates weekStart' = weekDates weekStart /\
      weekTimeBlocks weekStart' timeBlocks'
      = weekTimeBlocks weekStart timeBlocks).
Proof.
  intros k. repeat apply conj.
  - apply weekDates_keys.
  - unfold weekTimeBlocks. apply filter_ext. intros block.
    rewrite weekDates_keys. fold k. unfold includes. cbn [existsb].
    destruct (Z.leb_spec k (TimeBlock.day block));
      destruct (Z.leb_spec (TimeBlock.day block) (k + 6));
      cbn [andb];
      repeat match goal with
             | |- context [?x =? ?y] =>
                 destruct (Z.eqb_spec x y); cbn [orb]; try lia
             end; reflexivity.
  - intros block. unfold weekTimeBlocks.
    rewrite filter_In, includes_In. reflexivity.
  - intros anchor ->. unfold k.
    destruct (startOfWeek_spec anchor) as (E & _).
    pose proof (getDay_range anchor). lia.
  - intros ? ? -> ->. split; reflexivity.
Qed.

(** * Further properties *)

(** ** The store: how the actions compose *)

Lemma state_ext (s s' : StudyFlowState) :
  tasks s = tasks s' -> timeBlocks s = timeBlocks s' ->
  studySessions s = studySessions s' -> s = s'.
Proof. destruct s, s'. simpl. intros -> -> ->. reflexivity. Qed.

Lemma timeBlocks_deleteTimeBlock (id : string) (state : StudyFlowState) :
  timeBlocks (deleteTimeBlock id state)
  = filter (fun block => negb (TimeBlock.id block =? id)%string)
           (timeBlocks state).
Proof. reflexivity. Qed.

Lemma timeBlocks_updateTimeBlock (id : string) (updates : TimeBlock.updates)
  (state : StudyFlowState) :
  timeBlocks (updateTimeBlock id updates state)
  = map (fun block =>
           if (TimeBlock.id block =? id)%string
           then spreadTimeBlock block updates else block)
        (timeBlocks state).
Proof. reflexivity. Qed.

Lemma find_app_unknown {A : Type} (ident : A -> string) (id : string)
  (l : list A) (x : A) :
  find (fun y => (ident y =? id)%string) (l ++ [x])
  = match find (fun y => (ident y =? id)%string) l with
    | Some y => Some y
    | None => if (ident x =? id)%string then Some x else None
    end.
Proof.
  induction l as [|y l IH]; simpl.
  - reflexivity.
  - destruct (ident y =? id)%string; [reflexivity|exact IH].
Qed.

Lemma filter_app_unknown {A : Type} (ident : A -> string) (id : string)
  (l : list A) (x : A) :
  unknownId ident id l -> ident x = id ->
  filter (fun y => negb (ident y =? id)%string) (l ++ [x]) = l.
Proof.
  intros Hl Hx. rewrite filter_app, (filter_unknownId ident id l Hl).
  simpl. rewrite Hx, String.eqb_refl. simpl. apply app_nil_r.
Qed.

(** X1. A block added under an identifier that no block has is the block
    the identifier finds afterwards; every other identifier finds what it
    found before; the collection has one more block. *)
Theorem addTimeBlock_lookup (id : string) (timeBlock : TimeBlock.fresh)
  (state : StudyFlowState) :
  unknownId TimeBlock.id id (timeBlocks state) ->
  let added := snd (addTimeBlock id timeBlock state) in
  fst (addTimeBlock id timeBlock state) = id /\
  findTimeBlock id (timeBlocks added)
  = Some (TimeBlock.mk id (TimeBlock.f_taskId timeBlock)
                       (TimeBlock.f_title timeBlock)
                       (TimeBlock.f_start timeBlock)
                       (TimeBlock.f_end timeBlock)
                       (TimeBlock.f_day timeBlock)
                       (TimeBlock.f_color timeBlock)) /\
  (forall id', id' <> id ->
               findTimeBlock id' (timeBlocks added)
               = findTimeBlock id' (timeBlocks state)) /\
  List.length (timeBlocks added) = S (List.length (timeBlocks state)).
Proof.
  intros Hid added. split; [reflexivity|].
  unfold added. rewrite timeBlocks_addTimeBlock.
  unfold findTimeBlock. split; [|split].
  - rewrite (find_app_unknown TimeBlock.id).
    apply findTimeBlock_unknown in Hid. unfold findTimeBlock in Hid.
    rewrite Hid. cbn [TimeBlock.id]. rewrite String.eqb_refl. reflexivity.
  - intros id' Hneq. rewrite (find_app_unknown TimeBlock.id).
    destruct (find _ (timeBlocks state)); [reflexivity|].
    cbn [TimeBlock.id]. apply String.eqb_neq in Hneq.
    rewrite String.eqb_sym, Hneq. reflexivity.
  - rewrite length_app. simpl. lia.
Qed.

(** X2. Deleting a block that was added under an identifier that no block
    had gives back the state before the addition. *)
Theorem delete_after_add (id : string) (timeBlock : TimeBlock.fresh)
  (state : StudyFlowState) :
  unknownId TimeBlock.id id (timeBlocks state) ->
  deleteTimeBlock id (snd (addTimeBlock id timeBlock state)) = state.
Proof.
  intros Hid. apply state_ext; try reflexivity.
  rewrite timeBlocks_deleteTimeBlock, timeBlocks_addTimeBlock.
  apply (filter_app_unknown TimeBlock.id); [exact Hid|reflexivity].
Qed.

Lemma find_filter_other {A : Type} (ident : A -> string) (id id' : string)
  (l : list A) :
  id' <> id ->
  find (fun y => (ident y =? id')%string)
       (filter (fun y => negb (ident y =? id)%string) l)
  = find (fun y => (ident y =? id')%string) l.
Proof.
  intros Hneq. induction l as [|y l IH]; simpl; [reflexivity|].
  destruct (String.eqb_spec (ident y) id) as [E|N]; simpl.
  - destruct (String.eqb_spec (ident y) id') as [E'|_]; [congruence|].
    exact IH.
  - destruct (ident y =? id')%string; [reflexivity|exact IH].
Qed.

(** X3. A delete removes every block of the identifier, keeps what any
    other identifier finds, and a second delete changes nothing. *)
Theorem deleteTimeBlock_removes (id : string) (state : StudyFlowState) :
  unknownId TimeBlock.id id (timeBlocks (deleteTimeBlock id state)) /\
  (forall id', id' <> id ->
               findTimeBlock id' (timeBlocks (deleteTimeBlock id state))
               = findTimeBlock id' (timeBlocks state)) /\
  deleteTimeBlock id (deleteTimeBlock id state) = deleteTimeBlock id state.
Proof.
  assert (U : unknownId TimeBlock.id id
                (timeBlocks (deleteTimeBlock id state))).
  { intros b Hin. rewrite timeBlocks_deleteTimeBlock in Hin.
    apply filter_In in Hin. destruct Hin as [_ Hb].
    apply negb_true_iff, String.eqb_neq in Hb. exact Hb. }
  split; [exact U|]. split.
  - intros id' Hneq. rewrite timeBlocks_deleteTimeBlock.
    apply (find_filter_other TimeBlock.id), Hneq.
  - apply state_ext; try reflexivity.
    rewrite (timeBlocks_deleteTimeBlock id (deleteTimeBlock id state)).
    apply (filter_unknownId TimeBlock.id), U.
Qed.

Lemma spread_spread {A : Type} (old : A) (upd : option A) :
  spread (spread old upd) upd = spread old upd.
Proof. destruct upd; reflexivity. Qed.

Lemma spreadTimeBlock_twice (block : TimeBlock.t) (u : TimeBlock.updates) :
  spreadTimeBlock (spreadTimeBlock block u) u = spreadTimeBlock block u.
Proof.
  unfold spreadTimeBlock. cbn [TimeBlock.id TimeBlock.taskId TimeBlock.title
    TimeBlock.start TimeBlock.end_ TimeBlock.day TimeBlock.color].
  rewrite !spread_spread. reflexivity.
Qed.

Lemma updateTimeBlock_ids (id : string) (updates : TimeBlock.updates)
  (state : StudyFlowState) :
  map TimeBlock.id (timeBlocks (updateTimeBlock id updates state))
  = map TimeBlock.id (timeBlocks state) /\
  List.length (timeBlocks (updateTimeBlock id updates state))
  = List.length (timeBlocks state).
Proof.
  rewrite timeBlocks_updateTimeBlock. split; [|apply length_map].
  rewrite map_map. apply map_ext.
  intros b. destruct (TimeBlock.id b =? id)%string; reflexivity.
Qed.

(** X4. An update never adds, removes or reorders blocks and never changes
    an identifier, and applying the same update twice is the same as
    applying it once. *)
Theorem updateTimeBlock_idempotent (id : string)
  (updates : TimeBlock.updates) (state : StudyFlowState) :
  map TimeBlock.id (timeBlocks (updateTimeBlock id updates state))
  = map TimeBlock.id (timeBlocks state) /\
  updateTimeBlock id updates (updateTimeBlock id updates state)
  = updateTimeBlock id updates state.
Proof.
  split.
  - apply updateTimeBlock_ids.
  - apply state_ext; try reflexivity.
    rewrite !timeBlocks_updateTimeBlock, map_map. apply map_ext.
    intros b. destruct (TimeBlock.id b =? id)%string eqn:E.
    + cbn [spreadTimeBlock TimeBlock.id]. rewrite E.
      apply spreadTimeBlock_twice.
    + rewrite E. reflexivity.
Qed.

(** X5. Updates of two different identifiers can be applied in either
    order. *)
Theorem updateTimeBlock_commute (id id' : string)
  (updates updates' : TimeBlock.updates) (state : StudyFlowState) :
  id <> id' ->
  updateTimeBlock id updates (updateTimeBlock id' updates' state)
  = updateTimeBlock id' updates' (updateTimeBlock id updates state).
Proof.
  intros Hneq.
  transitivity
    (mkState (tasks state)
       (map (fun b =>
               if (TimeBlock.id b =? id)%string
               then spreadTimeBlock b updates
               else if (TimeBlock.id b =? id')%string
                    then spreadTimeBlock b updates' else b)
            (timeBlocks state))
       (studySessions state)).
  - apply state_ext; try reflexivity.
    rewrite !timeBlocks_updateTimeBlock, map_map. apply map_ext.
    intros b. destruct (String.eqb_spec (TimeBlock.id b) id') as [E'|N'].
    + cbn [spreadTimeBlock TimeBlock.id].
      destruct (String.eqb_spec (TimeBlock.id b) id) as [E|N];
        [congruence|reflexivity].
    + reflexivity.
  - symmetry. apply state_ext; try reflexivity.
    rewrite !timeBlocks_updateTimeBlock, map_map. apply map_ext.
    intros b. destruct (String.eqb_spec (TimeBlock.id b) id) as [E|N].
    + cbn [spreadTimeBlock TimeBlock.id].
      destruct (String.eqb_spec (TimeBlock.id b) id') as [E'|N'];
        [congruence|reflexivity].
    + reflexivity.
Qed.

Lemma unique_by_id {A : Type} (ident : A -> string) (l : list A) (x y : A) :
  uniqueIds ident l -> In x l -> In y l -> ident x = ident y -> x = y.
Proof.
  unfold uniqueIds. induction l as [|z l IH]; simpl; [contradiction|].
  intros Hnd Hx Hy E. inversion Hnd as [|? ? Hnotin Hnd']; subst.
  destruct Hx as [<-|Hx], Hy as [<-|Hy].
  - reflexivity.
  - exfalso. apply Hnotin. rewrite E. apply in_map, Hy.
  - exfalso. apply Hnotin. rewrite <- E. apply in_map, Hx.
  - apply IH; assumption.
Qed.

Lemma uniqueIds_filter {A : Type} (ident : A -> string) (p : A -> bool)
  (l : list A) :
  uniqueIds ident l -> uniqueIds ident (filter p l).
Proof.
  unfold uniqueIds. induction l as [|z l IH]; simpl; intros Hnd;
    [constructor|].
  inversion Hnd as [|? ? Hnotin Hnd']; subst.
  destruct (p z); [|apply IH, Hnd'].
  simpl. constructor; [|apply IH, Hnd'].
  intros Hin. apply Hnotin. apply in_map_iff in Hin.
  destruct Hin as (w & E & Hw). apply filter_In in Hw.
  apply in_map_iff. exists w. tauto.
Qed.

Lemma identity_updateTimeBlock (id : string) (s e : Z) (d : DayKey)
  (state : StudyFlowState) :
  map identity
      (timeBlocks
         (updateTimeBlock id
            (TimeBlock.mkUpdates None None (Some s) (Some e) (Some d) None)
            state))
  = map identity (timeBlocks state).
Proof.
  rewrite timeBlocks_updateTimeBlock, map_map. apply map_ext.
  intros b. destruct (TimeBlock.id b =? id)%string; reflexivity.
Qed.

Lemma identity_handleDragEnd (event : DragEndEvent)
  (state : StudyFlowState) :
  map identity (timeBlocks (handleDragEnd event state))
  = map identity (timeBlocks state).
Proof.
  unfold handleDragEnd.
  destruct (over event) as [o|]; [|reflexivity].
  destruct (negb (active_id event =? over_id o)%string && overSortable o).
  - destruct (findTimeBlock (active_id event) (timeBlocks state));
      [|reflexivity].
    destruct (findTimeBlock (over_id o) (timeBlocks state)); [|reflexivity].
    cbv zeta. rewrite !identity_updateTimeBlock. reflexivity.
  - destruct (overCell o) as [[day hour]|]; [|reflexivity].
    destruct (findTimeBlock (active_id event) (timeBlocks state));
      [|reflexivity].
    cbv zeta. apply identity_updateTimeBlock.
Qed.

Lemma ids_of_identity (l l' : list TimeBlock.t) :
  map identity l = map identity l' ->
  map TimeBlock.id l = map TimeBlock.id l'.
Proof.
  intros H.
  assert (E : forall l0, map TimeBlock.id l0
                         = map (fun i => fst (fst (fst i))) (map identity l0))
    by (intros l0; rewrite map_map; reflexivity).
  rewrite (E l), (E l'), H. reflexivity.
Qed.

(** X6. When no two blocks have the same identifier, this is still so
    after an addition under an identifier that no block has, after any
    update, after any delete and after any drag. *)
Theorem block_ids_stay_unique (state : StudyFlowState) :
  uniqueIds TimeBlock.id (timeBlocks state) ->
  (forall id timeBlock,
      unknownId TimeBlock.id id (timeBlocks state) ->
      uniqueIds TimeBlock.id
                (timeBlocks (snd (addTimeBlock id timeBlock state)))) /\
  (forall id updates,
      uniqueIds TimeBlock.id
                (timeBlocks (updateTimeBlock id updates state))) /\
  (forall id,
      uniqueIds TimeBlock.id (timeBlocks (deleteTimeBlock id state))) /\
  (forall event,
      uniqueIds TimeBlock.id (timeBlocks (handleDragEnd event state))).
Proof.
  intros Hu. repeat apply conj.
  - intros id timeBlock Hid. rewrite timeBlocks_addTimeBlock.
    unfold uniqueIds. rewrite map_app. cbn [map TimeBlock.id].
    apply NoDup_app; [exact Hu|repeat constructor; intros []|].
    intros x Hx [<-|[]]. apply in_map_iff in Hx.
    destruct Hx as (b & E & Hb). exact (Hid b Hb E).
  - intros id updates. unfold uniqueIds.
    rewrite (proj1 (updateTimeBlock_ids id updates state)). exact Hu.
  - intros id. rewrite timeBlocks_deleteTimeBlock.
    apply uniqueIds_filter, Hu.
  - intros event. unfold uniqueIds.
    rewrite (ids_of_identity _ _ (identity_handleDragEnd event state)).
    exact Hu.
Qed.

(** X7. A drag never adds, removes or reorders blocks, never changes the
    identifier, task, title or colour of a block, and leaves the tasks and
    the study sessions as they are. *)
Theorem drag_keeps_identity (event : DragEndEvent) (state : StudyFlowState) :
  map identity (timeBlocks (handleDragEnd event state))
  = map identity (timeBlocks state) /\
  List.length (timeBlocks (handleDragEnd event state))
  = List.length (timeBlocks state) /\
  tasks (handleDragEnd event state) = tasks state /\
  studySessions (handleDragEnd event state) = studySessions state.
Proof.
  split; [apply identity_handleDragEnd|]. split.
  - rewrite <- (length_map identity), identity_handleDragEnd.
    apply length_map.
  - unfold handleDragEnd.
    destruct (over event) as [o|]; [|split; reflexivity].
    destruct (negb (active_id event =? over_id o)%string && overSortable o).
    + destruct (findTimeBlock (active_id event) (timeBlocks state));
        [|split; reflexivity].
      destruct (findTimeBlock (over_id o) (timeBlocks state));
        split; reflexivity.
    + destruct (overCell o) as [[day hour]|]; [|split; reflexivity].
      destruct (findTimeBlock (active_id event) (timeBlocks state));
        split; reflexivity.
Qed.

(** X8. A drag that ends nowhere, or whose block is not in the store (any
    more), returns the state it was given. *)
Theorem drag_without_effect (event : DragEndEvent) (state : StudyFlowState) :
  over event = None \/
  findTimeBlock (active_id event) (timeBlocks state) = None ->
  handleDragEnd event state = state.
Proof.
  unfold handleDragEnd. intros [H|H].
  - rewrite H. reflexivity.
  - rewrite H. destruct (over event) as [o|]; [|reflexivity].
    destruct (negb (active_id event =? over_id o)%string && overSortable o);
      [reflexivity|].
    destruct (overCell o) as [[day hour]|]; reflexivity.
Qed.

(** X9. When no two blocks have the same identifier, dropping a block on
    another block a second time gives back the state before the first
    drop. *)
Theorem swap_twice (event : DragEndEvent) (state : StudyFlowState)
  (a b : TimeBlock.t) :
  uniqueIds TimeBlock.id (timeBlocks state) ->
  dropsOnBlock event state a b ->
  handleDragEnd event (handleDragEnd event state) = state.
Proof.
  intros Hu H.
  destruct (swapped_blocks _ _ _ _ H) as [Ha1 Hb1].
  assert (H' := H). unfold dropsOnBlock in H'.
  destruct (over event) as [o|] eqn:Ho; [|contradiction].
  destruct H' as (Hneq & Hsort & Ha & Hb).
  destruct (findTimeBlock_id _ _ _ Ha) as [Ina Ea].
  destruct (findTimeBlock_id _ _ _ Hb) as [Inb Eb].
  assert (Hab : TimeBlock.id a <> TimeBlock.id b) by congruence.
  match type of Ha1 with _ = Some ?x => set (a1 := x) in * end.
  match type of Hb1 with _ = Some ?x => set (b1 := x) in * end.
  assert (H1 : dropsOnBlock event (handleDragEnd event state) a1 b1).
  { unfold dropsOnBlock. rewrite Ho. rewrite <- Ea, <- Eb. tauto. }
  rewrite (handleDragEnd_block _ _ _ _ H1).
  rewrite (handleDragEnd_block _ _ _ _ H).
  apply state_ext; try reflexivity.
  rewrite !timeBlocks_updateTimeBlock, !map_map.
  rewrite <- (map_id (timeBlocks state)) at 2.
  apply map_ext_in. intros x Hx.
  assert (Ia1 : TimeBlock.id a1 = TimeBlock.id a) by reflexivity.
  assert (Ib1 : TimeBlock.id b1 = TimeBlock.id b) by reflexivity.
  rewrite Ia1, Ib1.
  destruct (String.eqb_spec (TimeBlock.id x) (TimeBlock.id a)) as [Exa|Nxa].
  - assert (x = a) by (apply (unique_by_id TimeBlock.id _ _ _ Hu Hx Ina Exa)).
    subst x. apply String.eqb_neq in Hab.
    repeat (cbn [spreadTimeBlock TimeBlock.id];
            rewrite ?String.eqb_refl, ?Hab).
    destruct a as [ia ta ti sa ea da ca], b as [ib tb tib sb eb db cb].
    unfold a1, b1, TimeBlock.duration, spreadTimeBlock, spread. cbn.
      f_equal. lia.
  - destruct (String.eqb_spec (TimeBlock.id x) (TimeBlock.id b)) as [Exb|Nxb].
    + assert (x = b)
        by (apply (unique_by_id TimeBlock.id _ _ _ Hu Hx Inb Exb)).
      subst x. apply String.eqb_neq in Nxa.
      repeat (cbn [spreadTimeBlock TimeBlock.id];
              rewrite ?String.eqb_refl, ?Nxa).
      destruct a as [ia ta ti sa ea da ca], b as [ib tb tib sb eb db cb].
      unfold a1, b1, TimeBlock.duration, spreadTimeBlock, spread. cbn.
      f_equal. lia.
    + apply String.eqb_neq in Nxa, Nxb. rewrite Nxa, Nxb. reflexivity.
Qed.

(** ** DeadlineTracker *)

Lemma tasks_updateTask (id : string) (updates : Task.updates)
  (state : StudyFlowState) :
  tasks (updateTask id updates state)
  = map (fun task =>
           if (Task.id task =? id)%string
           then spreadTask task updates else task)
        (tasks state).
Proof. reflexivity. Qed.

(** X10. Toggling the completion of a task has no effect when no task has
    the identifier; when no two tasks have the same identifier, it inverts
    the flag of the task and nothing else, and toggling twice gives back
    the state. *)
Theorem toggle_complete (taskId : string) (state : StudyFlowState) :
  uniqueIds Task.id (tasks state) ->
  (unknownId Task.id taskId (tasks state) ->
   handleToggleComplete taskId state = state) /\
  (forall task,
      In task (tasks state) -> Task.id task = taskId ->
      find (fun t => (Task.id t =? taskId)%string)
           (tasks (handleToggleComplete taskId state))
      = Some (spreadTask task
                (Task.mkUpdates None None None
                   (Some (negb (Task.completed task))) None None None))) /\
  handleToggleComplete taskId (handleToggleComplete taskId state) = state.
Proof.
  intros Hu. unfold handleToggleComplete at 1 2 4.
  destruct (find (fun t => (Task.id t =? taskId)%string) (tasks state))
    as [task|] eqn:Hf.
  - apply find_some in Hf. destruct Hf as [Hin E].
    apply String.eqb_eq in E.
    assert (Hfind : find (fun t => (Task.id t =? taskId)%string)
                      (tasks (updateTask taskId
                                (Task.mkUpdates None None None
                                   (Some (negb (Task.completed task)))
                                   None None None) state))
                    = Some (spreadTask task
                              (Task.mkUpdates None None None
                                 (Some (negb (Task.completed task)))
                                 None None None))).
    { rewrite tasks_updateTask.
      rewrite (find_map_update Task.id) by reflexivity.
      assert (F : find (fun x => (Task.id x =? taskId)%string) (tasks state)
                  = Some task).
      { destruct (find (fun x => (Task.id x =? taskId)%string)
                    (tasks state)) as [t0|] eqn:F0.
        - apply find_some in F0. destruct F0 as [Hin0 E0].
          apply String.eqb_eq in E0. f_equal.
          apply (unique_by_id Task.id _ _ _ Hu Hin0 Hin). congruence.
        - exfalso. pose proof (find_none _ _ F0 task Hin) as N.
          simpl in N. rewrite E, String.eqb_refl in N. discriminate. }
      rewrite F. cbn [option_map]. rewrite E, String.eqb_refl. reflexivity. }
    split; [|split].
    + intros Hun. exfalso. exact (Hun task Hin E).
    + intros task' Hin' E'.
      assert (task' = task)
        by (apply (unique_by_id Task.id _ _ _ Hu Hin' Hin); congruence).
      subst task'. exact Hfind.
    + unfold handleToggleComplete. rewrite Hfind.
      apply state_ext; try reflexivity.
      rewrite !tasks_updateTask, map_map.
      rewrite <- (map_id (tasks state)) at 2.
      apply map_ext_in. intros x Hx.
      destruct (String.eqb_spec (Task.id x) taskId) as [Ex|Nx].
      * assert (x = task)
          by (apply (unique_by_id Task.id _ _ _ Hu Hx Hin); congruence).
        subst x. cbn [spreadTask Task.id]. rewrite E, String.eqb_refl.
        destruct task. cbn. rewrite negb_involutive. reflexivity.
      * apply String.eqb_neq in Nx. rewrite Nx. reflexivity.
  - split; [reflexivity|]. split.
    + intros task Hin E. exfalso.
      pose proof (find_none _ _ Hf task Hin) as N. simpl in N.
      rewrite E, String.eqb_refl in N. discriminate.
    + unfold handleToggleComplete. rewrite Hf. reflexivity.
Qed.

(** ** Sorting by a key *)

Section SortByKey.
Context {A : Type} (key : A -> Z).

Let byKey (a b : A) : Z := key a - key b.

Lemma insertSorted_perm (x : A) (l : list A) :
  Permutation (insertSorted byKey x l) (x :: l).
Proof.
  induction l as [|y l IH]; simpl; [reflexivity|].
  destruct (byKey x y <=? 0); [reflexivity|].
  rewrite IH. apply perm_swap.
Qed.

Lemma Array_sort_perm (l : list A) : Permutation (Array_sort byKey l) l.
Proof.
  induction l as [|x l IH]; simpl; [reflexivity|].
  rewrite insertSorted_perm. constructor. exact IH.
Qed.

Lemma Array_sort_In (x : A) (l : list A) :
  In x (Array_sort byKey l) <-> In x l.
Proof.
  split; apply Permutation_in;
    [apply Array_sort_perm|symmetry; apply Array_sort_perm].
Qed.

Lemma insertSorted_sorted (x : A) (l : list A) :
  StronglySorted (fun a b => key a <= key b) l ->
  StronglySorted (fun a b => key a <= key b) (insertSorted byKey x l).
Proof.
  induction l as [|y l IH]; simpl; intros Hs.
  - repeat constructor.
  - inversion Hs as [|? ? Hs' Hall]; subst.
    destruct (Z.leb_spec (byKey x y) 0) as [Hle|Hgt]; unfold byKey in *.
    + constructor; [exact Hs|]. constructor; [lia|].
      eapply Forall_impl; [|exact Hall]. simpl. intros; lia.
    + constructor; [apply IH, Hs'|].
      apply Forall_forall. intros z Hz.
      apply (Permutation_in _ (insertSorted_perm x l)) in Hz.
      destruct Hz as [<-|Hz]; [lia|].
      rewrite Forall_forall in Hall. apply Hall, Hz.
Qed.

Lemma Array_sort_sorted (l : list A) :
  StronglySorted (fun a b => key a <= key b) (Array_sort byKey l).
Proof.
  induction l as [|x l IH]; simpl; [constructor|].
  apply insertSorted_sorted, IH.
Qed.

(** Stability: the elements of one key keep their order. *)
Lemma insertSorted_stable (k : Z) (x : A) (l : list A) :
  filter (fun a => key a =? k) (insertSorted byKey x l)
  = filter (fun a => key a =? k) (x :: l).
Proof.
  induction l as [|y l IH]; [reflexivity|].
  cbn [insertSorted].
  destruct (Z.leb_spec (byKey x y) 0) as [Hle|Hgt]; [reflexivity|].
  unfold byKey in Hgt. cbn [filter] in *. rewrite IH.
  destruct (Z.eqb_spec (key x) k) as [Ex|Nx];
    destruct (Z.eqb_spec (key y) k) as [Ey|Ny]; try reflexivity.
  lia.
Qed.

Lemma Array_sort_stable (k : Z) (l : list A) :
  filter (fun a => key a =? k) (Array_sort byKey l)
  = filter (fun a => key a =? k) l.
Proof.
  induction l as [|x l IH]; [reflexivity|].
  cbn [Array_sort fold_right]. fold (Array_sort byKey l).
  rewrite insertSorted_stable. cbn [filter]. rewrite IH. reflexivity.
Qed.

End SortByKey.

(** ** Selectors of the store *)

Lemma filter_twice {A : Type} (f g : A -> bool) (l : list A) :
  filter f (filter g l) = filter (fun x => g x && f x) l.
Proof.
  induction l as [|x l IH]; simpl; [reflexivity|].
  destruct (g x); simpl; [|exact IH].
  destruct (f x); [f_equal|]; exact IH.
Qed.

Lemma startOfDay_midnight (now : Z) :
  LocalTime (startOfDay now) = localDay now * ES.msPerDay.
Proof. unfold startOfDay. time_arith. Qed.

(** X11. The upcoming deadlines are the tasks of the store that are not
    completed and whose deadline lies strictly between the local midnight
    that begins today and that midnight [days] days later; they are listed
    by ascending deadline, tasks of one deadline in the order of the store;
    there is none when [days] is not positive. *)
Theorem upcoming_deadlines (now days : Z) (state : StudyFlowState) :
  let today := UTC (localDay now * ES.msPerDay) in
  (forall task,
      In task (getUpcomingDeadlines now days state) <->
      In task (tasks state) /\
      Task.completed task = false /\
      today < Task.deadline task < today + days * ES.msPerDay) /\
  StronglySorted (fun a b => Task.deadline a <= Task.deadline b)
                 (getUpcomingDeadlines now days state) /\
  (forall deadline,
      filter (fun task => Task.deadline task =? deadline)
             (getUpcomingDeadlines now days state)
      = filter (fun task =>
                  (Task.deadline task =? deadline)
                  && negb (Task.completed task)
                  && (today <? deadline)
                  && (deadline <? today + days * ES.msPerDay))
               (tasks state)) /\
  (days <= 0 -> getUpcomingDeadlines now days state = []).
Proof.
  intros today.
  assert (Et : startOfDay now = today).
  { unfold today. rewrite <- startOfDay_midnight. unfold UTC, LocalTime.
    lia. }
  unfold getUpcomingDeadlines. cbv zeta. rewrite addDays_days, Et.
  unfold isAfter, isBefore.
  assert (Hin : forall task,
             In task
               (filter (fun task =>
                          if Task.completed task then false
                          else (Task.deadline task >? today)
                               && (Task.deadline task
                                   <? today + days * ES.msPerDay))
                       (tasks state)) <->
             In task (tasks state) /\
             Task.completed task = false /\
             today < Task.deadline task < today + days * ES.msPerDay).
  { intros task. rewrite filter_In.
    destruct (Task.completed task).
    - intuition discriminate.
    - rewrite andb_true_iff, Z.gtb_ltb, !Z.ltb_lt. tauto. }
  split; [|split; [|split]].
  - intros task. rewrite (Array_sort_In Task.deadline). apply Hin.
  - apply (Array_sort_sorted Task.deadline).
  - intros deadline. rewrite (Array_sort_stable Task.deadline).
    rewrite filter_twice. apply filter_ext. intros task.
    destruct (Z.eqb_spec (Task.deadline task) deadline) as [<-|_];
      [|destruct (Task.completed task); cbn [negb andb];
        rewrite ?andb_false_r; reflexivity].
    destruct (Task.completed task); cbn [negb andb]; [reflexivity|].
    rewrite Z.gtb_ltb, andb_true_r. reflexivity.
  - intros Hd.
    assert (E : filter (fun task =>
                          if Task.completed task then false
                          else (Task.deadline task >? today)
                               && (Task.deadline task
                                   <? today + days * ES.msPerDay))
                       (tasks state) = []).
    { destruct (filter _ (tasks state)) as [|task l] eqn:F; [reflexivity|].
      exfalso. pose proof (proj1 (Hin task) (or_introl eq_refl)) as I.
      unfold ES.msPerDay in I. lia. }
    rewrite E. reflexivity.
Qed.

Lemma includesId_In (ids : list (option string)) (id : string) :
  includesId ids id = true <-> In (Some id) ids.
Proof.
  unfold includesId. rewrite existsb_exists. split.
  - intros ([x|] & Hx & E); [|discriminate].
    apply String.eqb_eq in E. subst. exact Hx.
  - intros H. exists (Some id). split; [exact H|apply String.eqb_refl].
Qed.

(** X12. The tasks for today are, in the order of the store, the tasks
    that a block filed under today refers to by a task identifier that is
    not empty, completed or not, and the tasks that are not completed and
    whose deadline falls on today; a block that refers to no task of the
    store adds nothing. *)
Theorem tasks_for_today (now : Z) (state : StudyFlowState) (task : Task.t) :
  In task (getTasksForToday now state) <->
  In task (tasks state) /\
  ((exists block,
       In block (timeBlocks state) /\
       TimeBlock.day block = format_yyyy_MM_dd now /\
       TimeBlock.taskId block = Some (Task.id task) /\
       Task.id task <> ""%string) \/
   (format_yyyy_MM_dd (Task.deadline task) = format_yyyy_MM_dd now /\
    Task.completed task = false)).
Proof.
  unfold getTasksForToday. cbv zeta.
  rewrite filter_In, orb_true_iff, andb_true_iff, negb_true_iff, Z.eqb_eq.
  rewrite includesId_In, in_map_iff.
  assert (E : (exists x, TimeBlock.taskId x = Some (Task.id task) /\
                         In x (filter
                                 (fun block =>
                                    (TimeBlock.day block
                                     =? format_yyyy_MM_dd now)
                                    && hasTaskId block)
                                 (timeBlocks state))) <->
              (exists block,
                  In block (timeBlocks state) /\
                  TimeBlock.day block = format_yyyy_MM_dd now /\
                  TimeBlock.taskId block = Some (Task.id task) /\
                  Task.id task <> ""%string)).
  { split.
    - intros (x & Ex & Hx). apply filter_In in Hx.
      destruct Hx as [Hx Hc]. apply andb_true_iff in Hc.
      destruct Hc as [Hd Ht]. apply Z.eqb_eq in Hd.
      exists x. repeat split; try assumption.
      unfold hasTaskId in Ht. rewrite Ex in Ht.
      intros N. rewrite N in Ht. discriminate.
    - intros (block & Hb & Hd & Ht & Hn). exists block.
      split; [exact Ht|]. apply filter_In. split; [exact Hb|].
      apply andb_true_iff. split; [apply Z.eqb_eq, Hd|].
      unfold hasTaskId. rewrite Ht.
      destruct (Task.id task); [contradiction|reflexivity]. }
  rewrite E. reflexivity.
Qed.

(** ** DeadlineTracker: the list shown *)

Lemma Priority_eqb_eq (p q : Priority) : Priority_eqb p q = true <-> p = q.
Proof. destruct p, q; simpl; split; congruence. Qed.

(** X13. The tasks shown are the tasks of the store that pass the three
    filters, by ascending deadline, tasks of one deadline in the order of
    the store; a completed task is shown only when completed tasks are
    asked for. *)
Theorem shown_tasks (showCompleted : bool) (filterPriority : option Priority)
  (filterLabel : string) (tasks : list Task.t) :
  (forall task,
      In task (sortedTasks showCompleted filterPriority filterLabel tasks)
      <->
      In task tasks /\
      (showCompleted = false -> Task.completed task = false) /\
      (forall p, filterPriority = Some p -> Task.priority task = p) /\
      (filterLabel <> "all"%string -> Task.label task = filterLabel)) /\
  StronglySorted (fun a b => Task.deadline a <= Task.deadline b)
    (sortedTasks showCompleted filterPriority filterLabel tasks) /\
  (forall deadline,
      filter (fun task => Task.deadline task =? deadline)
             (sortedTasks showCompleted filterPriority filterLabel tasks)
      = filter (fun task => Task.deadline task =? deadline)
               (filteredTasks showCompleted filterPriority filterLabel
                              tasks)) /\
  Permutation (sortedTasks true None "all" tasks) tasks.
Proof.
  unfold sortedTasks. split; [|split; [|split]].
  - intros task. rewrite (Array_sort_In Task.deadline).
    unfold filteredTasks. rewrite filter_In.
    destruct showCompleted, (Task.completed task); cbn [negb andb];
      destruct filterPriority as [p|];
      try (destruct (Priority_eqb (Task.priority task) p) eqn:Ep;
           [apply Priority_eqb_eq in Ep|
            assert (Task.priority task <> p)
              by (intros C; apply Priority_eqb_eq in C; congruence)]);
      cbn [negb];
      destruct (String.eqb_spec filterLabel "all");
      destruct (String.eqb_spec (Task.label task) filterLabel);
      cbn [negb andb];
      (split;
       [intros [? ?]; try discriminate; repeat split; intros;
        try congruence
       |intros (? & Hc & Hp & Hl); split; [assumption|];
        try reflexivity; exfalso;
        try (specialize (Hc eq_refl); discriminate);
        try (specialize (Hp _ eq_refl); congruence);
        try (specialize (Hl ltac:(assumption)); congruence)]).
  - apply (Array_sort_sorted Task.deadline).
  - intros deadline. apply (Array_sort_stable Task.deadline).
  - rewrite (Array_sort_perm Task.deadline). unfold filteredTasks.
    replace (filter _ tasks) with tasks; [reflexivity|].
    induction tasks as [|task l IH]; [reflexivity|].
    cbn. f_equal. exact IH.
Qed.

(** ** Analytics *)

Lemma filter_partition_length {A : Type} (f : A -> bool) (l : list A) :
  (List.length (filter f l)
   + List.length (filter (fun x => negb (f x)) l))%nat
  = List.length l.
Proof.
  induction l as [|x l IH]; simpl; [reflexivity|].
  destruct (f x); simpl; lia.
Qed.

(** X14. In the completion statistics the pending count is the number of
    tasks that are not completed; it is never negative, and the completed
    count never exceeds the total. *)
Theorem completion_counts (tasks : list Task.t) :
  pending (completionStats tasks)
  = Z.of_nat
      (List.length (filter (fun task => negb (Task.completed task)) tasks))
  /\
  0 <= pending (completionStats tasks) <= total (completionStats tasks) /\
  0 <= completed (completionStats tasks) <= total (completionStats tasks).
Proof.
  unfold completionStats. cbv zeta. cbn [pending total completed].
  pose proof (filter_partition_length (fun task => Task.completed task)
                tasks) as H.
  cbv beta in H. lia.
Qed.

Lemma Map_get_set (key key' : string) (value : Z) (m : StringMap) :
  Map_get key' (Map_set key value m)
  = if (key =? key')%string then Some value else Map_get key' m.
Proof.
  induction m as [|[k v] m IH]; simpl.
  - destruct (key =? key')%string; reflexivity.
  - destruct (String.eqb_spec k key) as [->|N]; simpl.
    + destruct (key =? key')%string; reflexivity.
    + rewrite IH. destruct (String.eqb_spec k key') as [->|N'];
        [|reflexivity].
      apply String.eqb_neq in N. rewrite String.eqb_sym, N. reflexivity.
Qed.

Lemma Map_get_In (key : string) (m : StringMap) :
  Map_get key m = None <-> ~ In key (map fst m).
Proof.
  induction m as [|[k v] m IH]; simpl; [tauto|].
  destruct (String.eqb_spec k key) as [->|N].
  - split; [discriminate|]. intros H. exfalso. apply H. left. reflexivity.
  - rewrite IH. tauto.
Qed.

Lemma Map_set_keys (key : string) (value : Z) (m : StringMap) :
  NoDup (map fst m) -> NoDup (map fst (Map_set key value m)).
Proof.
  induction m as [|[k v] m IH]; simpl; intros Hnd.
  - repeat constructor. intros [].
  - inversion Hnd as [|? ? Hnotin Hnd']; subst.
    destruct (String.eqb_spec k key) as [->|N]; simpl.
    + constructor; assumption.
    + constructor; [|apply IH, Hnd'].
      intros Hin. apply Map_get_In in Hnotin.
      assert (G : Map_get k (Map_set key value m) = None).
      { rewrite Map_get_set. apply String.eqb_neq in N.
        rewrite String.eqb_sym, N. exact Hnotin. }
      apply Map_get_In in G. contradiction.
Qed.

(** X15. The chart of tasks by priority has one entry for each translated
    priority that some task has, never two entries of the same label, and
    the count of an entry is the number of tasks of that translated
    priority. *)
Theorem priority_counts (t : string -> string) (tasks : list Task.t) :
  NoDup (map fst (tasksByPriority t tasks)) /\
  forall key,
    Map_get key (tasksByPriority t tasks)
    = if countPriority t key tasks =? 0 then None
      else Some (countPriority t key tasks).
Proof.
  unfold tasksByPriority, countPriority.
  set (label := fun task : Task.t =>
                  t ("deadlineTracker.priority"
                     ++ capitalizedPriority (Task.priority task))%string).
  set (step := fun (priorityMap : StringMap) (task : Task.t) => _).
  assert (G : forall l m,
             NoDup (map fst m) ->
             (forall k v, Map_get k m = Some v -> 1 <= v) ->
             NoDup (map fst (fold_left step l m)) /\
             forall key,
               Map_get key (fold_left step l m)
               = let n := Z.of_nat
                            (List.length
                               (filter (fun task => (label task =? key)%string)
                                       l)) in
                 match Map_get key m with
                 | Some v => Some (v + n)
                 | None => if n =? 0 then None else Some n
                 end).
  { induction l as [|task l IH]; intros m Hnd Hpos.
    - split; [exact Hnd|]. intros key. cbn.
      destruct (Map_get key m); [f_equal; lia|reflexivity].
    - cbn [fold_left].
      assert (Hnd' : NoDup (map fst (step m task)))
        by (apply Map_set_keys, Hnd).
      assert (Hpos' : forall k v, Map_get k (step m task) = Some v -> 1 <= v).
      { intros k v. unfold step. rewrite Map_get_set. fold (label task).
        destruct (label task =? k)%string; [|apply Hpos].
        intros [= <-]. destruct (Map_get (label task) m) as [c|] eqn:Gc;
          [|lia].
        pose proof (Hpos _ _ Gc). destruct (c =? 0); lia. }
      destruct (IH _ Hnd' Hpos') as [IH1 IH2]. split; [exact IH1|].
      intros key. rewrite IH2. cbv zeta. unfold step at 1.
      rewrite Map_get_set. fold (label task). cbn [filter].
      destruct (String.eqb_spec (label task) key) as [<-|N].
      + cbn [List.length]. rewrite Nat2Z.inj_succ.
        destruct (Map_get (label task) m) as [c|] eqn:Gc.
        * pose proof (Hpos _ _ Gc).
          destruct (Z.eqb_spec c 0); [lia|]. f_equal. lia.
        * destruct (Z.eqb_spec (Z.succ (Z.of_nat (List.length
              (filter (fun task0 => (label task0 =? label task)%string) l))))
            0) as [E|_]; [lia|]. f_equal. lia.
      + reflexivity. }
  destruct (G tasks [] ltac:(constructor) ltac:(discriminate)) as [G1 G2].
  split; [exact G1|]. intros key. rewrite G2. reflexivity.
Qed.

(** ** Timetable: where a block shows *)

Lemma instants_lt (t t' : Z) : t < t' <-> LocalTime t < LocalTime t'.
Proof. unfold LocalTime. lia. Qed.

Lemma LocalTime_setHours4 (t hour min sec ms : Z) :
  LocalTime (setHours4 t hour min sec ms)
  = localDay t * ES.msPerDay + ES.MakeTime hour min sec ms.
Proof. unfold setHours4. rewrite LocalTime_UTC. reflexivity. Qed.

Lemma LocalTime_setHours (t hour min sec : Z) :
  LocalTime (setHours t hour min sec)
  = localDay t * ES.msPerDay
    + ES.MakeTime hour min sec (ES.msFromTime (LocalTime t)).
Proof. apply LocalTime_setHours4. Qed.

(** With a zone offset of whole seconds, the start the dialog and the drag
    compute for a cell is the hour boundary of the cell. *)
Lemma cell_start (day : DayKey) (hour : Z) :
  LocalTZA mod ES.msPerSecond = 0 ->
  setHours (newDate day) hour 0 0 = currentHourStart day hour.
Proof.
  intros Hz. unfold setHours, currentHourStart. f_equal.
  unfold ES.msFromTime, LocalTime, newDate, ES.msPerDay, ES.msPerSecond in *.
  replace (day * 86400000 + LocalTZA)
    with (LocalTZA + (day * 86400) * 1000) by lia.
  rewrite Z.mod_add by lia. exact Hz.
Qed.

Lemma LocalTime_currentHourStart (day : DayKey) (hour : Z) :
  LocalTime (currentHourStart day hour)
  = localDay (newDate day) * ES.msPerDay + hour * ES.msPerHour.
Proof.
  unfold currentHourStart. rewrite LocalTime_setHours4.
  unfold ES.MakeTime. lia.
Qed.

Lemma msFromTime_currentHourStart (day : DayKey) (hour : Z) :
  ES.msFromTime (LocalTime (currentHourStart day hour)) = 0.
Proof.
  rewrite LocalTime_currentHourStart.
  unfold ES.msFromTime, ES.msPerDay, ES.msPerHour, ES.msPerSecond.
  replace (localDay (newDate day) * 86400000 + hour * 3600000)
    with (0 + (localDay (newDate day) * 86400 + hour * 3600) * 1000) by lia.
  rewrite Z.mod_add by lia. reflexivity.
Qed.

Lemma localDay_currentHourStart (day : DayKey) (hour : Z) :
  0 <= hour < 24 ->
  localDay (currentHourStart day hour) = localDay (newDate day).
Proof.
  intros Hh. unfold currentHourStart. apply localDay_setHours4.
  unfold ES.MakeTime, ES.msPerHour, ES.msPerMinute, ES.msPerSecond,
    ES.msPerDay. lia.
Qed.

(** The end the dialog stores for a block of [duration] hours that starts
    at the hour boundary [hour]: it lies after the boundary [h] of the same
    column exactly when [h < hour + duration]. *)
Lemma dialog_end_after (day : DayKey) (hour duration h : Z) :
  0 <= hour < 24 -> 0 <= h < 24 -> 1 <= duration ->
  let start := currentHourStart day hour in
  let end0 := setHours start (getHours start + duration) 0 0 in
  let end_ :=
    if negb (getDate end0 =? getDate start)
    then setHours end0 23 59 59 else end0 in
  currentHourStart day h < end_ <-> h < hour + duration.
Proof.
  intros Hh Hh' Hd start end0 end_.
  assert (L0 : LocalTime end0
               = localDay (newDate day) * ES.msPerDay
                 + (hour + duration) * ES.msPerHour).
  { unfold end0. rewrite LocalTime_setHours. unfold start.
    rewrite getHours_currentHourStart, localDay_currentHourStart,
      msFromTime_currentHourStart by assumption.
    unfold ES.MakeTime. lia. }
  pose proof (LocalTime_currentHourStart day h) as Lh.
  unfold end_. destruct (getDate end0 =? getDate start) eqn:E; cbn [negb].
  - rewrite instants_lt, L0, Lh. unfold ES.msPerHour. lia.
  - apply getDate_differs in E. unfold start in E.
    rewrite localDay_currentHourStart in E by assumption.
    assert (G : localDay (newDate day) < localDay end0).
    { unfold localDay at 2. rewrite L0. unfold ES.Day.
      assert (N : localDay end0 <> localDay (newDate day)) by exact E.
      unfold localDay at 1 in N. rewrite L0 in N. unfold ES.Day in N.
      unfold ES.msPerDay, ES.msPerHour in *.
      Z.div_mod_to_equations. lia. }
    rewrite instants_lt, LocalTime_setHours, Lh.
    pose proof (msFromTime_range (LocalTime end0)) as Hms.
    assert (B : hour + duration >= 24).
    { unfold localDay at 2 in G. rewrite L0 in G. unfold ES.Day in G.
      unfold ES.msPerDay, ES.msPerHour in *.
      Z.div_mod_to_equations. lia. }
    unfold ES.MakeTime, ES.msPerDay, ES.msPerHour, ES.msPerMinute,
      ES.msPerSecond in *. lia.
Qed.

(** X16. With a zone offset of whole seconds, a block that the dialog of
    the cell [(day, hour)] adds for [duration] hours is filed under the
    day; in its column it is a starting block of the cell of [hour] only,
    and a spanning block of exactly the cells of the hours after [hour]
    and before [hour + duration]. *)
Theorem created_block_cells (id : string) (day : DayKey) (hour : Z)
  (title : string) (duration : Z) (color : string)
  (state : StudyFlowState) :
  truthy (trim title) = true ->
  0 <= hour < 24 -> 1 <= duration ->
  LocalTZA mod ES.msPerSecond = 0 ->
  let state' := submitAdd id day hour title duration color state in
  exists block,
    In block (getTimeBlocksForDay day state') /\
    TimeBlock.id block = id /\
    TimeBlock.title block = title /\
    forall h,
      0 <= h < 24 ->
      (In block (startingBlocksForCell day h (getTimeBlocksForDay day state'))
       <-> h = hour) /\
      (In block (spanningBlocks day h (getTimeBlocksForDay day state'))
       <-> hour < h < hour + duration).
Proof.
  intros Ht Hh Hd Hz state'.
  unfold state', submitAdd, handleAdd. rewrite Ht. cbn [negb]. cbv zeta.
  rewrite (cell_start day hour Hz).
  match goal with
  | |- context [addTimeBlock id ?f state] => set (fresh := f)
  end.
  set (block := TimeBlock.mk id (TimeBlock.f_taskId fresh)
                  (TimeBlock.f_title fresh) (TimeBlock.f_start fresh)
                  (TimeBlock.f_end fresh) (TimeBlock.f_day fresh)
                  (TimeBlock.f_color fresh)).
  assert (Hin : In block (getTimeBlocksForDay day
                            (snd (addTimeBlock id fresh state)))).
  { unfold getTimeBlocksForDay. rewrite timeBlocks_addTimeBlock.
    apply filter_In. split; [apply in_or_app; right; left; reflexivity|].
    apply Z.eqb_refl. }
  exists block. split; [exact Hin|]. split; [reflexivity|].
  split; [reflexivity|].
  intros h Hh'.
  assert (Hs : TimeBlock.start block = currentHourStart day hour)
    by reflexivity.
  assert (Hg : getHours (TimeBlock.start block) = hour)
    by (rewrite Hs; apply getHours_currentHourStart, Hh).
  split.
  - rewrite startingBlocksForCell_In, Hg. split; [intros [_ E]; lia|].
    intros ->. split; [exact Hin|reflexivity].
  - rewrite spanningBlocks_In, Hg, Hs, currentHourStart_lt.
    pose proof (dialog_end_after day hour duration h Hh Hh' Hd) as He.
    cbv zeta in He.
    change (TimeBlock.end_ block) with (TimeBlock.f_end fresh).
    unfold fresh. cbn [TimeBlock.f_end]. rewrite He.
    split; [intros (_ & _ & ? & ?); lia|].
    intros [? ?]. repeat split; try assumption; lia.
Qed.

(** X17. After a drag that ends on the cell [(day, hour)], the moved block
    is filed under [day] and nowhere else, and in the column of [day] it
    is a starting block of the cell of [hour] and of no other cell. *)
Theorem moved_block_cell (event : DragEndEvent) (state : StudyFlowState)
  (a : TimeBlock.t) (day : DayKey) (hour : Z) :
  dropsOnCell event state a day hour ->
  0 <= hour < 24 ->
  let state' := handleDragEnd event state in
  exists a',
    findTimeBlock (TimeBlock.id a) (timeBlocks state') = Some a' /\
    (forall b, In b (timeBlocks state') ->
               TimeBlock.id b = TimeBlock.id a -> TimeBlock.day b = day) /\
    forall h,
      In a' (startingBlocksForCell day h (getTimeBlocksForDay day state'))
      <-> h = hour.
Proof.
  intros H Hh state'. unfold state'.
  rewrite (handleDragEnd_cell _ _ _ _ _ H). cbv zeta.
  unfold dropsOnCell in H. destruct (over event) as [o|]; [|contradiction].
  destruct H as (_ & _ & Ha).
  destruct (findTimeBlock_id _ _ _ Ha) as [_ Ea]. rewrite <- Ea in Ha.
  match goal with
  | |- context [updateTimeBlock _ ?u state] => set (updates := u)
  end.
  assert (Hf : findTimeBlock (TimeBlock.id a)
                 (timeBlocks (updateTimeBlock (TimeBlock.id a) updates state))
               = Some (spreadTimeBlock a updates)).
  { rewrite findTimeBlock_updateTimeBlock, Ha. cbn [option_map].
    rewrite String.eqb_refl. reflexivity. }
  exists (spreadTimeBlock a updates). split; [exact Hf|]. split.
  - intros b Hb Eb. rewrite timeBlocks_updateTimeBlock in Hb.
    apply in_map_iff in Hb. destruct Hb as (x & <- & _).
    destruct (String.eqb_spec (TimeBlock.id x) (TimeBlock.id a)) as [E|N].
    + reflexivity.
    + contradiction.
  - intros h. rewrite startingBlocksForCell_In.
    assert (Hg : getHours (TimeBlock.start (spreadTimeBlock a updates))
                 = hour) by (apply getHours_setHours, Hh).
    rewrite Hg. split; [intros [_ E]; lia|]. intros ->.
    split; [|reflexivity].
    unfold getTimeBlocksForDay. apply filter_In. split.
    + apply findTimeBlock_id in Hf. apply Hf.
    + apply Z.eqb_refl.
Qed.

(** X18. In a cell no block is both a starting and a spanning block, the
    two lists together hold the blocks of the cell, and the cell offers the
    add dialog exactly when it has no block at all. *)
Theorem cell_lists_partition (day : DayKey) (hour : Z)
  (timeBlocks : list TimeBlock.t) :
  Permutation (startingBlocksForCell day hour timeBlocks
               ++ spanningBlocks day hour timeBlocks)
              (blocksForCell day hour timeBlocks) /\
  (forall block,
      In block (startingBlocksForCell day hour timeBlocks) ->
      ~ In block (spanningBlocks day hour timeBlocks)) /\
  (cellBody day hour timeBlocks = AddDialog day hour <->
   blocksForCell day hour timeBlocks = []).
Proof.
  assert (P : Permutation (startingBlocksForCell day hour timeBlocks
                           ++ spanningBlocks day hour timeBlocks)
                          (blocksForCell day hour timeBlocks)).
  { unfold startingBlocksForCell, spanningBlocks, isFirstOccurrence.
    induction (blocksForCell day hour timeBlocks) as [|b l IH];
      [reflexivity|].
    cbn [filter]. destruct (getHours (TimeBlock.start b) =? hour);
      cbn [negb app].
    - constructor. exact IH.
    - rewrite <- Permutation_middle. constructor. exact IH. }
  split; [exact P|]. split.
  - intros block Hs Hp. apply startingBlocksForCell_In in Hs.
    apply spanningBlocks_In in Hp. tauto.
  - rewrite cellBody_empty. split.
    + intros [E1 E2]. rewrite E1, E2 in P.
      apply Permutation_nil in P. exact P.
    + intros E. rewrite E in P. symmetry in P.
      apply Permutation_nil, app_eq_nil in P. exact P.
Qed.

(** ** Week navigation *)

(** X20. Going to the next week and back, or back and forth, gives the
    week start again, and no block is shown in two successive weeks. *)
Theorem week_navigation (weekStart : Z) (timeBlocks : list TimeBlock.t) :
  handlePrevWeek (handleNextWeek weekStart) = weekStart /\
  handleNextWeek (handlePrevWeek weekStart) = weekStart /\
  forall block,
    In block (weekTimeBlocks weekStart timeBlocks) ->
    ~ In block (weekTimeBlocks (handleNextWeek weekStart) timeBlocks).
Proof.
  unfold handlePrevWeek, handleNextWeek. rewrite !addDays_days.
  split; [lia|]. split; [lia|].
  intros block. unfold weekTimeBlocks. rewrite !filter_In, !includes_In.
  rewrite !weekDates_keys. cbv zeta.
  pose proof (format_addDays weekStart 7) as F.
  rewrite addDays_days in F. rewrite F. cbn [In]. lia.
Qed.

(** ** Utilities *)

Lemma length_append (s1 s2 : string) :
  String.length (s1 ++ s2) = (String.length s1 + String.length s2)%nat.
Proof. induction s1 as [|c s1 IH]; simpl; [reflexivity|]. now rewrite IH. Qed.

Lemma length_substring_0 (n : nat) (s : string) :
  (n <= String.length s)%nat -> String.length (substring 0 n s) = n.
Proof.
  revert s. induction n as [|n IH]; intros [|c s] H; simpl in *;
    try reflexivity; try lia.
  rewrite IH; [reflexivity|lia].
Qed.

Lemma substring_0_append (n : nat) (s1 s2 : string) :
  (n <= String.length s1)%nat ->
  substring 0 n (s1 ++ s2) = substring 0 n s1.
Proof.
  revert s1. induction n as [|n IH]; intros [|c s1] H; simpl in *;
    try reflexivity; try lia.
  - destruct s2; reflexivity.
  - rewrite IH; [reflexivity|lia].
Qed.

Lemma substring_0_twice (n : nat) (s : string) :
  substring 0 n (substring 0 n s) = substring 0 n s.
Proof.
  revert s. induction n as [|n IH]; intros [|c s]; simpl;
    try reflexivity.
  now rewrite IH.
Qed.

Lemma slice0_nonneg (str : string) (n : Z) :
  0 <= n < Z.of_nat (String.length str) ->
  slice0 str n = substring 0 (Z.to_nat n) str.
Proof.
  intros H. unfold slice0. destruct (Z.ltb_spec n 0) as [N|_]; [lia|].
  rewrite Z.min_l by lia. reflexivity.
Qed.

Lemma truncateString_short (str : string) (length : Z) :
  Z.of_nat (String.length str) <= length ->
  truncateString str length = str.
Proof.
  intros H. unfold truncateString. apply Z.leb_le in H. rewrite H.
  reflexivity.
Qed.

Lemma truncateString_long (str : string) (length : Z) :
  0 <= length < Z.of_nat (String.length str) ->
  truncateString str length
  = (substring 0 (Z.to_nat length) str ++ "...")%string.
Proof.
  intros [H0 H]. unfold truncateString. apply Z.leb_gt in H. rewrite H.
  apply Z.leb_gt in H. rewrite slice0_nonneg by lia. reflexivity.
Qed.

Lemma truncateString_long_length (str : string) (length : Z) :
  0 <= length < Z.of_nat (String.length str) ->
  Z.of_nat (String.length (truncateString str length)) = length + 3.
Proof.
  intros H. rewrite truncateString_long by exact H.
  rewrite length_append, length_substring_0 by lia. simpl. lia.
Qed.

(** X21. [truncateString] returns a string of at most [length] units
    unchanged; from a longer one it keeps the first [length] units, followed
    by three dots, so the result has [length + 3] units, which can be more
    than the string had. *)
Theorem truncateString_result (str : string) (length : Z) :
  0 <= length ->
  (Z.of_nat (String.length str) <= length ->
   truncateString str length = str) /\
  (length < Z.of_nat (String.length str) ->
   truncateString str length
   = (substring 0 (Z.to_nat length) str ++ "...")%string /\
   Z.of_nat (String.length (truncateString str length)) = length + 3).
Proof.
  intros H0. split; intros H.
  - now apply truncateString_short.
  - split; [apply truncateString_long|apply truncateString_long_length];
      lia.
Qed.

(** X22. Truncating an already truncated string to the same length changes
    nothing. *)
Theorem truncateString_idempotent (str : string) (length : Z) :
  0 <= length ->
  truncateString (truncateString str length) length
  = truncateString str length.
Proof.
  intros H0.
  destruct (Z.le_gt_cases (Z.of_nat (String.length str)) length) as [L|G].
  - rewrite (truncateString_short str length L).
    exact (truncateString_short str length L).
  - pose proof (truncateString_long_length str length ltac:(lia)) as Hlen.
    pose proof (truncateString_long str length ltac:(lia)) as E.
    rewrite (truncateString_long (truncateString str length)) by lia.
    rewrite E at 1.
    rewrite substring_0_append
      by (rewrite length_substring_0; lia).
    rewrite substring_0_twice. symmetry. exact E.
Qed.

Lemma Number_toString_inj (n n' : Z) :
  Number_toString n = Number_toString n' -> n = n'.
Proof.
  unfold Number_toString. intros E.
  assert (N : forall z, Z.to_int z <> Decimal.Pos Decimal.Nil /\
                        Z.to_int z <> Decimal.Neg Decimal.Nil).
  { intros [|p|p]; simpl; split; try discriminate;
      intros [= C]; exact (DecimalPos.Unsigned.to_uint_nonnil p C). }
  apply DecimalZ.to_int_inj. apply (f_equal NilZero.int_of_string) in E.
  rewrite !NilZero.isi in E by apply N. congruence.
Qed.

Lemma append_same_length (a b x y : string) :
  String.length x = String.length y ->
  (a ++ x = b ++ y)%string -> a = b /\ x = y.
Proof.
  intros Hl. revert b. induction a as [|c a IH]; intros [|d b] E;
    simpl in E.
  - split; [reflexivity|exact E].
  - exfalso. apply (f_equal String.length) in E. simpl in E.
    rewrite length_append in E. lia.
  - exfalso. apply (f_equal String.length) in E. simpl in E.
    rewrite length_append in E. lia.
  - injection E as -> E. destruct (IH b E) as [-> ->]. split; reflexivity.
Qed.

Lemma timeSlotsFrom_In (hour : Z) (count : nat) (slot : string) :
  In slot (timeSlotsFrom hour count) ->
  exists h, hour <= h < hour + Z.of_nat count /\
            (slot = (Number_toString h ++ ":00")%string \/
             slot = (Number_toString h ++ ":30")%string).
Proof.
  revert hour. induction count as [|count IH]; intros hour Hin;
    [contradiction|].
  cbn [timeSlotsFrom In] in Hin.
  destruct Hin as [<-|[<-|Hin]].
  - exists hour. split; [lia|left; reflexivity].
  - exists hour. split; [lia|right; reflexivity].
  - destruct (IH _ Hin) as (h & Hh & Hs). exists h. split; [lia|exact Hs].
Qed.

Lemma timeSlotsFrom_nth (hour : Z) (count i : nat) :
  (i < count)%nat ->
  nth_error (timeSlotsFrom hour count) (2 * i)
  = Some (Number_toString (hour + Z.of_nat i) ++ ":00")%string /\
  nth_error (timeSlotsFrom hour count) (2 * i + 1)
  = Some (Number_toString (hour + Z.of_nat i) ++ ":30")%string.
Proof.
  revert hour i. induction count as [|count IH]; intros hour i Hi; [lia|].
  destruct i as [|i].
  - cbn. rewrite Z.add_0_r. split; reflexivity.
  - replace (2 * S i)%nat with (S (S (2 * i))) by lia.
    replace (S (S (2 * i)) + 1)%nat with (S (S (2 * i + 1))) by lia.
    cbn [timeSlotsFrom nth_error].
    replace (hour + Z.of_nat (S i)) with (hour + 1 + Z.of_nat i) by lia.
    apply IH. lia.
Qed.

Lemma timeSlotsFrom_length (hour : Z) (count : nat) :
  List.length (timeSlotsFrom hour count) = (2 * count)%nat.
Proof.
  revert hour. induction count as [|count IH]; intros hour;
    [reflexivity|].
  cbn [timeSlotsFrom List.length]. rewrite IH. lia.
Qed.

(** X23. [generateTimeSlots] yields two slots for each hour from the start
    hour to the end hour, in order: the hour and its half; it yields none
    when the end hour is before the start hour. *)
Theorem generateTimeSlots_slots (startHour endHour : Z) :
  List.length (generateTimeSlots startHour endHour)
  = (2 * Z.to_nat (endHour - startHour + 1))%nat /\
  (endHour < startHour -> generateTimeSlots startHour endHour = []) /\
  forall i,
    (Z.of_nat i <= endHour - startHour) ->
    nth_error (generateTimeSlots startHour endHour) (2 * i)
    = Some (Number_toString (startHour + Z.of_nat i) ++ ":00")%string /\
    nth_error (generateTimeSlots startHour endHour) (2 * i + 1)
    = Some (Number_toString (startHour + Z.of_nat i) ++ ":30")%string.
Proof.
  unfold generateTimeSlots. split; [apply timeSlotsFrom_length|]. split.
  - intros H. replace (Z.to_nat (endHour - startHour + 1)) with O by lia.
    reflexivity.
  - intros i Hi. apply timeSlotsFrom_nth. lia.
Qed.

(** X24. The time slots that [generateTimeSlots] yields are all
    different. *)
Theorem generateTimeSlots_distinct (startHour endHour : Z) :
  NoDup (generateTimeSlots startHour endHour).
Proof.
  unfold generateTimeSlots.
  generalize (Z.to_nat (endHour - startHour + 1)) as count.
  intros count. revert startHour.
  induction count as [|count IH]; intros hour; [constructor|].
  cbn [timeSlotsFrom].
  assert (Later : forall suffix,
             String.length suffix = 3%nat ->
             ~ In (Number_toString hour ++ suffix)%string
                  (timeSlotsFrom (hour + 1) count)).
  { intros suffix Hl Hin. apply timeSlotsFrom_In in Hin.
    destruct Hin as (h & Hh & [E|E]);
      apply append_same_length in E; try (rewrite Hl; reflexivity);
      destruct E as [E _]; apply Number_toString_inj in E; lia. }
  constructor; [|constructor].
  - intros [E|Hin].
    + apply append_same_length in E; [|reflexivity].
      destruct E as [_ E]. discriminate.
    + exact (Later ":00"%string eq_refl Hin).
  - exact (Later ":30"%string eq_refl).
  - apply IH.
Qed.

(** ** Tasks and their deadlines *)

Lemma getUpcomingDeadlines_In (now days : Z) (state : StudyFlowState)
  (task : Task.t) :
  In task (getUpcomingDeadlines now days state) <->
  In task (tasks state) /\
  Task.completed task = false /\
  startOfDay now < Task.deadline task
  < startOfDay now + days * ES.msPerDay.
Proof.
  unfold getUpcomingDeadlines. cbv zeta.
  rewrite (Array_sort_In Task.deadline), filter_In, addDays_days.
  unfold isAfter, isBefore. destruct (Task.completed task).
  - intuition discriminate.
  - rewrite andb_true_iff, Z.gtb_ltb, !Z.ltb_lt. tauto.
Qed.

(** X25. Completing a task removes the tasks of that identifier from the
    upcoming deadlines and leaves the others listed as before. *)
Theorem completed_not_upcoming (now days : Z) (id : string)
  (state : StudyFlowState) (task : Task.t) :
  In task (getUpcomingDeadlines now days (completeTask id state)) <->
  In task (getUpcomingDeadlines now days state) /\ Task.id task <> id.
Proof.
  rewrite !getUpcomingDeadlines_In.
  change (tasks (completeTask id state))
    with (map (fun task =>
                 if (Task.id task =? id)%string
                 then spreadTask task
                        (Task.mkUpdates None None None (Some true) None None
                                        None)
                 else task)
              (tasks state)).
  rewrite in_map_iff. split.
  - intros ((x & Ex & Hx) & Hc & Hd).
    destruct (String.eqb_spec (Task.id x) id) as [E|N].
    + subst task. discriminate.
    + subst task. tauto.
  - intros ((Hin & Hc & Hd) & Hn). split; [|tauto].
    exists task. split; [|exact Hin].
    apply String.eqb_neq in Hn. rewrite Hn. reflexivity.
Qed.

(** X26. A task that the dialog submits with a title that is not blank and
    a chosen deadline is stored under the identifier given, with the
    trimmed title, not completed; it is listed among the upcoming deadlines
    exactly when its deadline lies strictly between today's midnight and
    that midnight [days] days later. Without a deadline, or with a blank
    title, nothing is stored. *)
Theorem submitted_task (id : string) (created : Z)
  (title description : string) (deadline : Z) (priority : Priority)
  (label : string) (estimatedTime : Q) (state : StudyFlowState) :
  truthy (trim title) = true ->
  let state' :=
    submitTask id created title description (Some deadline) priority label
               estimatedTime state in
  (exists task,
      tasks state' = tasks state ++ [task] /\
      Task.id task = id /\
      Task.title task = trim title /\
      Task.title task <> ""%string /\
      Task.completed task = false /\
      Task.deadline task = deadline /\
      forall now days,
        In task (getUpcomingDeadlines now days state') <->
        startOfDay now < deadline < startOfDay now + days * ES.msPerDay) /\
  submitTask id created title description None priority label estimatedTime
             state = state /\
  (forall blank,
      truthy (trim blank) = false ->
      submitTask id created blank description (Some deadline) priority label
                 estimatedTime state = state).
Proof.
  intros Ht state'. split; [|split].
  - unfold state', submitTask, AddTaskDialog_handleAdd. rewrite Ht.
    cbn [negb orb].
    eexists. split; [reflexivity|].
    repeat (split; [reflexivity|]).
    split; [cbn [Task.title]; destruct (trim title);
            [discriminate|discriminate]|].
    repeat (split; [reflexivity|]).
    intros now days. rewrite getUpcomingDeadlines_In.
    cbn [Task.completed Task.deadline]. split; [tauto|].
    intros Hd. split; [|tauto].
    change (tasks (snd (addTask id created _ state)))
      with (tasks state ++ [Task.mk id (trim title) (Some (trim description))
                                    deadline false priority label
                                    estimatedTime created]).
    apply in_or_app. right. left. reflexivity.
  - unfold submitTask, AddTaskDialog_handleAdd.
    rewrite orb_true_r. reflexivity.
  - intros blank Hb. unfold submitTask, AddTaskDialog_handleAdd.
    rewrite Hb. reflexivity.
Qed.

(** X27. No code path gives a block a task: when no block refers to a
    task, this is still so after the add dialog, after any drag and after
    any delete, and the tasks for today are then exactly the tasks that are
    not completed and whose deadline falls on today. *)
Theorem blocks_never_refer_to_tasks (state : StudyFlowState) :
  noTaskRefs state ->
  (forall id day hour title duration color,
      noTaskRefs (submitAdd id day hour title duration color state)) /\
  (forall event, noTaskRefs (handleDragEnd event state)) /\
  (forall id, noTaskRefs (deleteTimeBlock id state)) /\
  (forall now,
      getTasksForToday now state
      = filter (fun task =>
                  (format_yyyy_MM_dd (Task.deadline task)
                   =? format_yyyy_MM_dd now)
                  && negb (Task.completed task))
               (tasks state)).
Proof.
  intros Hn. repeat apply conj.
  - intros id day hour title duration color. unfold submitAdd, handleAdd.
    destruct (negb (truthy (trim title))); [exact Hn|].
    intros block Hin. rewrite timeBlocks_addTimeBlock in Hin.
    apply in_app_or in Hin. destruct Hin as [Hin|[<-|[]]];
      [apply Hn, Hin|reflexivity].
  - intros event block Hin.
    pose proof (identity_handleDragEnd event state) as Hid.
    assert (I : In (identity block)
                   (map identity (timeBlocks (handleDragEnd event state))))
      by (apply in_map, Hin).
    rewrite Hid in I. apply in_map_iff in I.
    destruct I as (x & Ex & Hx). pose proof (Hn x Hx) as Nx.
    unfold identity in Ex. injection Ex as _ Et _ _. congruence.
  - intros id block Hin. rewrite timeBlocks_deleteTimeBlock in Hin.
    apply filter_In in Hin. apply Hn, Hin.
  - intros now. unfold getTasksForToday. cbv zeta.
    assert (E : filter (fun block =>
                          (TimeBlock.day block =? format_yyyy_MM_dd now)
                          && hasTaskId block) (timeBlocks state) = []).
    { unfold noTaskRefs in Hn.
      induction (timeBlocks state) as [|b l IH]; [reflexivity|].
      cbn [filter]. unfold hasTaskId at 1.
      rewrite (Hn b (or_introl eq_refl)), andb_false_r.
      apply IH. intros x Hx. apply Hn. right. exact Hx. }
    rewrite E. reflexivity.
Qed.

(** ** formatTime *)

Lemma string_of_uint_digits (d : Decimal.uint) :
  allDigits (NilEmpty.string_of_uint d) = true.
Proof. induction d; simpl; try reflexivity; exact IHd. Qed.

Lemma Number_toString_digits (n : Z) :
  0 <= n -> allDigits (Number_toString n) = true.
Proof.
  intros Hn. unfold Number_toString. destruct n as [|p|p]; [reflexivity| |lia].
  simpl. unfold NilZero.string_of_uint.
  destruct (Pos.to_uint p); try apply string_of_uint_digits. reflexivity.
Qed.

Lemma digits_prefix (a a' r r' : string) (c c' : ascii) :
  allDigits a = true -> allDigits a' = true ->
  isDigit c = false -> isDigit c' = false ->
  (a ++ String c r = a' ++ String c' r')%string ->
  a = a' /\ c = c' /\ r = r'.
Proof.
  intros Ha Ha' Hc Hc'. revert a' Ha'.
  induction a as [|x a IH]; intros [|x' a'] Ha' E; simpl in *.
  - injection E as -> ->. repeat split.
  - injection E as -> _. apply andb_true_iff in Ha'. destruct Ha'. congruence.
  - injection E as -> _. apply andb_true_iff in Ha. destruct Ha. congruence.
  - injection E as -> E. apply andb_true_iff in Ha, Ha'.
    destruct (IH (proj2 Ha) a' (proj2 Ha') E) as (-> & -> & ->).
    repeat split.
Qed.

(** The shape of [formatTime] on a number of minutes that is not
    negative. *)
Lemma formatTime_shape (minutes : Z) :
  0 <= minutes ->
  exists digits c rest,
    formatTime minutes = (digits ++ String c rest)%string /\
    allDigits digits = true /\ isDigit c = false /\
    ((minutes < 60 /\ digits = Number_toString minutes /\
      c = "m"%char /\ rest = ""%string) \/
     (60 <= minutes /\ digits = Number_toString (minutes / 60) /\
      c = "h"%char /\
      ((minutes mod 60 = 0 /\ rest = " "%string) \/
       (0 < minutes mod 60 /\
        rest = (" " ++ Number_toString (minutes mod 60) ++ "m")%string)))).
Proof.
  intros Hm. unfold formatTime. cbv zeta.
  rewrite (Z.rem_mod_nonneg minutes 60) by lia.
  pose proof (Z.mod_pos_bound minutes 60 ltac:(lia)) as Hr.
  pose proof (Z.div_mod minutes 60 ltac:(lia)) as Hdm.
  assert (0 <= minutes / 60) by (apply Z.div_pos; lia).
  destruct (Z.eqb_spec (minutes / 60) 0) as [E|N].
  - exists (Number_toString (minutes mod 60)), "m"%char, ""%string.
    split; [reflexivity|].
    split; [apply Number_toString_digits; lia|]. split; [reflexivity|].
    left. repeat split; try lia. f_equal. lia.
  - exists (Number_toString (minutes / 60)), "h"%char.
    destruct (Z.gtb_spec (minutes mod 60) 0) as [G|L].
    + eexists. split; [reflexivity|].
      split; [apply Number_toString_digits; lia|]. split; [reflexivity|].
      right. repeat split; try lia. right. split; [lia|reflexivity].
    + eexists. split; [reflexivity|].
      split; [apply Number_toString_digits; lia|]. split; [reflexivity|].
      right. repeat split; try lia. left. split; [lia|reflexivity].
Qed.

(** X28. Two different numbers of minutes, neither negative, are never
    formatted alike. *)
Theorem formatTime_injective (minutes minutes' : Z) :
  0 <= minutes -> 0 <= minutes' ->
  formatTime minutes = formatTime minutes' -> minutes = minutes'.
Proof.
  intros Hm Hm' E.
  destruct (formatTime_shape minutes Hm)
    as (d & c & r & F & Hd & Hc & Hcase).
  destruct (formatTime_shape minutes' Hm')
    as (d' & c' & r' & F' & Hd' & Hc' & Hcase').
  rewrite F, F' in E.
  destruct (digits_prefix _ _ _ _ _ _ Hd Hd' Hc Hc' E) as (Ed & Ec & Er).
  pose proof (Z.div_mod minutes 60 ltac:(lia)).
  pose proof (Z.div_mod minutes' 60 ltac:(lia)).
  destruct Hcase as [(? & -> & -> & ->)|(? & -> & -> & Hrest)];
    destruct Hcase' as [(? & -> & -> & ->)|(? & -> & -> & Hrest')];
    try discriminate.
  - apply Number_toString_inj, Ed.
  - apply Number_toString_inj in Ed.
    destruct Hrest as [[? ->]|[? ->]], Hrest' as [[? ->]|[? ->]].
    + lia.
    + exfalso. apply (f_equal String.length) in Er. simpl in Er.
      rewrite length_append in Er. simpl in Er. lia.
    + exfalso. apply (f_equal String.length) in Er. simpl in Er.
      rewrite length_append in Er. simpl in Er. lia.
    + injection Er as Er. apply append_same_length in Er; [|reflexivity].
      destruct Er as [Er _]. apply Number_toString_inj in Er. lia.
Qed.

End LocalZone.

(** * The properties on sample data, in the zone UTC *)

Example day_2024_01_01_is_monday :
  (ES.YearFromTime (newDate day_2024_01_01),
   ES.MonthFromTime (newDate day_2024_01_01),
   ES.DateFromTime (newDate day_2024_01_01),
   ES.WeekDay (newDate day_2024_01_01)) = (2024, 0, 1, 1).
Proof. reflexivity. Qed.

(** C1. A block added at 23:00 for three hours, and a two-hour block
    dragged to the cell of 23:00, end at 23:59:59 of the day after the
    start day. *)
Theorem clamp_ends_on_next_day :
  handleAdd 0 day_2024_01_01 23 "Study" 3 "bg-red-200"
  = Some (TimeBlock.mkFresh None "Study"
            (utcHour day_2024_01_01 23)
            (newDate day_2024_01_02 + ES.MakeTime 23 59 59 0)
            day_2024_01_01 (Some "bg-red-200"%string)) /\
  findTimeBlock "a" (timeBlocks (handleDragEnd 0 dropAt23 sampleState))
  = Some (TimeBlock.mk "a" None "Study"
            (utcHour day_2024_01_01 23)
            (newDate day_2024_01_02 + ES.MakeTime 23 59 59 0)
            day_2024_01_01 (Some "bg-red-200"%string)).
Proof. split; vm_compute; reflexivity. Qed.

Lemma dropAt14_dropsOnCell :
  dropsOnCell dropAt14 sampleState study day_2024_01_02 14.
Proof. repeat split. right. reflexivity. Defined.

(** C4. Five hours west of UTC, the two-hour block dragged to the cell
    (2 January, 14) is filed under 2 January and runs from 14:00 to 16:00,
    local time, of 1 January: 19:00 to 21:00 UTC of 1 January, a day before
    14:00 of 2 January, which is 19:00 UTC of 2 January. In the zone UTC,
    the block dragged to the cell (1 January, 23) is filed under 1 January
    and ends at 23:59:59 of 2 January, which is neither the new start plus
    the two hours nor 23:59:59 of the day of the cell. *)
Theorem move_to_cell_off_the_day :
  (dropsOnCell dropAt14 sampleState study day_2024_01_02 14 /\
   findTimeBlock "a"
     (timeBlocks (handleDragEnd utcMinus5 dropAt14 sampleState))
   = Some (TimeBlock.mk "a" None "Study"
             (utcHour day_2024_01_01 19) (utcHour day_2024_01_01 21)
             day_2024_01_02 (Some "bg-red-200"%string)) /\
   (format_yyyy_MM_dd utcMinus5 (utcHour day_2024_01_01 19),
    getHours utcMinus5 (utcHour day_2024_01_01 19),
    getMinutes utcMinus5 (utcHour day_2024_01_01 19))
   = (day_2024_01_01, 14, 0) /\
   (format_yyyy_MM_dd utcMinus5 (utcHour day_2024_01_01 21),
    getHours utcMinus5 (utcHour day_2024_01_01 21),
    getMinutes utcMinus5 (utcHour day_2024_01_01 21))
   = (day_2024_01_01, 16, 0) /\
   localInstant utcMinus5 day_2024_01_02 14 = utcHour day_2024_01_02 19) /\
  (dropsOnCell dropAt23 sampleState study day_2024_01_01 23 /\
   findTimeBlock "a" (timeBlocks (handleDragEnd 0 dropAt23 sampleState))
   = Some (TimeBlock.mk "a" None "Study"
             (utcHour day_2024_01_01 23)
             (newDate day_2024_01_02 + ES.MakeTime 23 59 59 0)
             day_2024_01_01 (Some "bg-red-200"%string)) /\
   (format_yyyy_MM_dd 0 (newDate day_2024_01_02 + ES.MakeTime 23 59 59 0),
    getHours 0 (newDate day_2024_01_02 + ES.MakeTime 23 59 59 0),
    getMinutes 0 (newDate day_2024_01_02 + ES.MakeTime 23 59 59 0),
    getSeconds 0 (newDate day_2024_01_02 + ES.MakeTime 23 59 59 0))
   = (day_2024_01_02, 23, 59, 59) /\
   newDate day_2024_01_02 + ES.MakeTime 23 59 59 0
   - utcHour day_2024_01_01 23
   = 24 * ES.msPerHour + 59 * ES.msPerMinute + 59 * ES.msPerSecond).
Proof.
  split.
  - split; [repeat split; right; reflexivity|].
    split; [vm_compute; reflexivity|]. split; [vm_compute; reflexivity|].
    split; vm_compute; reflexivity.
  - split; [repeat split; right; reflexivity|].
    split; [vm_compute; reflexivity|]. split; vm_compute; reflexivity.
Qed.

Lemma dropAt23_dropsOnCell :
  dropsOnCell dropAt23 sampleState study day_2024_01_01 23.
Proof. repeat split. right. reflexivity. Defined.

Lemma dropOnReading_dropsOnBlock :
  dropsOnBlock dropOnReading sampleState study reading.
Proof. repeat split. discriminate. Defined.

Lemma sampleState_wellFormed : wellFormed sampleState.
Proof.
  intros b [<-|[<-|[]]]; vm_compute; reflexivity.
Defined.

(** C2, as stated, fails: the two-hour block dragged to the cell of 23:00
    no longer lasts two hours. *)
Lemma move_to_2300_changes_duration :
  dropsOnCell dropAt23 sampleState study day_2024_01_01 23 /\
  exists a',
    findTimeBlock (TimeBlock.id study)
                  (timeBlocks (handleDragEnd 0 dropAt23 sampleState))
    = Some a' /\
    TimeBlock.duration a' <> TimeBlock.duration study.
Proof.
  split; [exact dropAt23_dropsOnCell|].
  eexists. split; [vm_compute; reflexivity|]. vm_compute. discriminate.
Qed.

Lemma move_keeps_duration_witness :
  (dropsOnCell dropAt14 sampleState study day_2024_01_02 14 /\
   localDay 0 (setHours 0 (newDate day_2024_01_02) 14 0 0
               + TimeBlock.duration study)
   = localDay 0 (setHours 0 (newDate day_2024_01_02) 14 0 0)) /\
  exists a',
    findTimeBlock "a" (timeBlocks (handleDragEnd 0 dropAt14 sampleState))
    = Some a' /\
    TimeBlock.duration a' = TimeBlock.duration study.
Proof.
  assert (H : dropsOnCell dropAt14 sampleState study day_2024_01_02 14 /\
              localDay 0 (setHours 0 (newDate day_2024_01_02) 14 0 0
                          + TimeBlock.duration study)
              = localDay 0 (setHours 0 (newDate day_2024_01_02) 14 0 0)).
  { split; [exact dropAt14_dropsOnCell|vm_compute; reflexivity]. }
  split; [exact H|].
  apply (move_keeps_duration 0 dropAt14 sampleState study).
  right. exists day_2024_01_02, 14. exact H.
Defined.

Lemma swap_symmetry_witness :
  dropsOnBlock dropOnReading sampleState study reading /\
  exists a' b',
    findTimeBlock "a" (timeBlocks (handleDragEnd 0 dropOnReading sampleState))
    = Some a' /\
    findTimeBlock "b" (timeBlocks (handleDragEnd 0 dropOnReading sampleState))
    = Some b' /\
    TimeBlock.start a' = utcHour day_2024_01_02 16 /\
    TimeBlock.start b' = utcHour day_2024_01_01 9 /\
    TimeBlock.day a' = day_2024_01_02 /\
    TimeBlock.day b' = day_2024_01_01 /\
    TimeBlock.end_ a' = utcHour day_2024_01_02 18 /\
    TimeBlock.end_ b' = utcHour day_2024_01_01 10 /\
    TimeBlock.duration a' = 2 * ES.msPerHour /\
    TimeBlock.duration b' = 1 * ES.msPerHour.
Proof.
  split; [exact dropOnReading_dropsOnBlock|].
  exact (swap_symmetry 0 dropOnReading sampleState study reading
           dropOnReading_dropsOnBlock).
Defined.

(** The scenario of the specification: a two-hour block dragged to the
    cell (2 January, 14) runs from 14:00 to 16:00 of 2 January. *)
Lemma move_to_cell_witness :
  dropsOnCell dropAt14 sampleState study day_2024_01_02 14 /\
  0 <= 14 < 24 /\
  exists a',
    findTimeBlock "a" (timeBlocks (handleDragEnd 0 dropAt14 sampleState))
    = Some a' /\
    TimeBlock.start a' = utcHour day_2024_01_02 14 /\
    TimeBlock.end_ a' = utcHour day_2024_01_02 16 /\
    TimeBlock.day a' = day_2024_01_02 /\
    TimeBlock.title a' = "Study"%string /\
    TimeBlock.color a' = Some "bg-red-200"%string /\
    TimeBlock.taskId a' = None.
Proof.
  split; [exact dropAt14_dropsOnCell|]. split; [lia|].
  destruct (move_to_cell 0 dropAt14 sampleState study day_2024_01_02 14
              dropAt14_dropsOnCell ltac:(lia))
    as (a' & Hfind & Hstart & _ & _ & _ & _ & _ & Hend & _ & Hday & _
        & Htitle & Hcolor & Htask).
  exists a'. rewrite Hstart in Hend.
  repeat split; try assumption.
  apply Hend. vm_compute. reflexivity.
Defined.



(** Five hours west of UTC the block [seminar] runs from 09:00 to 11:00,
    local time, of 2 January, the day it is filed under; it starts in the
    cell (2 January, 9), but it is not a block of the cell (2 January, 10),
    the boundary of which is 10:00 of 1 January. *)
Example wall_clock_block_west_of_utc :
  (TimeBlock.start seminar = localInstant utcMinus5 day_2024_01_02 9 /\
   TimeBlock.end_ seminar = localInstant utcMinus5 day_2024_01_02 11 /\
   TimeBlock.day seminar = day_2024_01_02) /\
  startingBlocksForCell utcMinus5 day_2024_01_02 9 [seminar] = [seminar] /\
  blocksForCell utcMinus5 day_2024_01_02 10 [seminar] = [] /\
  spanningBlocks utcMinus5 day_2024_01_02 10 [seminar] = [] /\
  currentHourStart utcMinus5 day_2024_01_02 10
  = localInstant utcMinus5 day_2024_01_01 10.
Proof.
  split; [repeat split|]. split; [vm_compute; reflexivity|].
  split; [vm_compute; reflexivity|]. split; vm_compute; reflexivity.
Qed.

(** C6. The add dialog stores a block of whatever duration was entered:
    with the duration 0 the block ends when it starts, and with the
    duration -2 it ends two hours before it starts, in a store in which
    every block ended after its start. *)
Theorem add_with_duration_0 :
  wellFormed initialState /\
  timeBlocks (submitAdd 0 "a" day_2024_01_01 9 "Study" 0 "bg-red-200"
                        initialState)
  = [TimeBlock.mk "a" None "Study" (utcHour day_2024_01_01 9)
                  (utcHour day_2024_01_01 9) day_2024_01_01
                  (Some "bg-red-200"%string)] /\
  timeBlocks (submitAdd 0 "a" day_2024_01_01 9 "Study" (-2) "bg-red-200"
                        initialState)
  = [TimeBlock.mk "a" None "Study" (utcHour day_2024_01_01 9)
                  (utcHour day_2024_01_01 7) day_2024_01_01
                  (Some "bg-red-200"%string)] /\
  utcHour day_2024_01_01 7 < utcHour day_2024_01_01 9.
Proof.
  split; [intros b []|].
  split; [vm_compute; reflexivity|].
  split; vm_compute; reflexivity.
Qed.

Lemma end_after_start_kept_witness :
  wellFormed sampleState /\
  wellFormed (submitAdd 0 "c" day_2024_01_01 23 "Study" 3 "bg-red-200"
                        sampleState) /\
  wellFormed (handleDragEnd 0 dropAt23 sampleState).
Proof.
  split; [exact sampleState_wellFormed|].
  destruct (end_after_start_kept 0 sampleState sampleState_wellFormed)
    as [Hadd Hdrag].
  split; [apply Hadd; lia|apply Hdrag].
Defined.

Lemma drop_on_itself_witness :
  over dropOnItself = Some (blockTarget "a") /\
  over_id (blockTarget "a") = active_id dropOnItself /\
  overCell (blockTarget "a") = None /\
  handleDragEnd 0 dropOnItself sampleState = sampleState.
Proof.
  split; [reflexivity|]. split; [reflexivity|]. split; [reflexivity|].
  apply (drop_on_itself 0 dropOnItself sampleState (blockTarget "a"));
    reflexivity.
Defined.

(** Five hours west of UTC, [new Date('2024-01-02')] is 19:00 of
    1 January, and the start computed for the cell (2 January, 14) is 14:00
    of 1 January; three hours east of UTC it is 14:00 of 2 January. *)
Example cell_start_by_zone :
  let west := -5 * ES.msPerHour in
  let east := 3 * ES.msPerHour in
  (format_yyyy_MM_dd west (setHours west (newDate day_2024_01_02) 14 0 0)
   = day_2024_01_01 /\
   getHours west (setHours west (newDate day_2024_01_02) 14 0 0) = 14) /\
  (format_yyyy_MM_dd east (setHours east (newDate day_2024_01_02) 14 0 0)
   = day_2024_01_02 /\
   getHours east (setHours east (newDate day_2024_01_02) 14 0 0) = 14).
Proof. repeat split. Qed.

(** The scenario of the specification: a block is added, then deleted by
    its identifier. *)
Example add_then_delete :
  let block :=
    TimeBlock.mkFresh None "Study" (utcHour day_2024_01_01 9)
                      (utcHour day_2024_01_01 10) day_2024_01_01 None in
  let added := snd (addTimeBlock "c" block sampleState) in
  let deleted := deleteTimeBlock "c" added in
  findTimeBlock "c" (timeBlocks added) <> None /\
  findTimeBlock "c" (timeBlocks deleted) = None /\
  (List.length (timeBlocks added)
   = S (List.length (timeBlocks deleted)))%nat.
Proof. repeat split. discriminate. Qed.

Example week_of_2024_01_03 :
  weekDates 0 (startOfWeek 0 (utcHour 19725 15))
  = [19722; 19723; 19724; 19725; 19726; 19727; 19728].
Proof. reflexivity. Qed.

(** * The further properties on sample data, in the zone UTC *)

Lemma sampleState_unknown_c :
  unknownId TimeBlock.id "c" (timeBlocks sampleState).
Proof. intros b [<-|[<-|[]]]; discriminate. Qed.

(** No block has the identifier c: the update and the delete return the
    state. The block b is the second one: the update gives it the title
    supplied and takes its colour away, and keeps the rest. *)
Lemma update_delete_by_id_witness :
  unknownId TimeBlock.id "c" (timeBlocks sampleState) /\
  (updateTimeBlock "c" retitle sampleState = sampleState /\
   deleteTimeBlock "c" sampleState = sampleState) /\
  nth_error (timeBlocks sampleState) 1 = Some reading /\
  exists block',
    nth_error (timeBlocks (updateTimeBlock "b" retitle sampleState)) 1
    = Some block' /\
    TimeBlock.id block' = "b"%string /\
    TimeBlock.taskId block' = None /\
    TimeBlock.title block' = "Revision"%string /\
    TimeBlock.start block' = utcHour day_2024_01_02 16 /\
    TimeBlock.end_ block' = utcHour day_2024_01_02 17 /\
    TimeBlock.day block' = day_2024_01_02 /\
    TimeBlock.color block' = None.
Proof.
  split; [exact sampleState_unknown_c|].
  split.
  { exact (proj1 (update_delete_by_id "c" sampleState retitle noTaskUpdates
                    noSessionUpdates) sampleState_unknown_c). }
  split; [reflexivity|].
  destruct (update_delete_by_id "b" sampleState retitle noTaskUpdates
              noSessionUpdates) as (_ & _ & _ & Hmerge & _).
  destruct (Hmerge 1%nat reading eq_refl) as (block' & Hnth & _ & Hfields).
  exists block'. split; [exact Hnth|]. exact (Hfields eq_refl).
Defined.

Lemma sampleState_uniqueIds : uniqueIds TimeBlock.id (timeBlocks sampleState).
Proof.
  unfold uniqueIds. cbn. repeat constructor; cbn; intuition discriminate.
Qed.

Lemma sampleStore_uniqueIds : uniqueIds Task.id (tasks sampleStore).
Proof.
  unfold uniqueIds. cbn. repeat constructor; cbn; intuition discriminate.
Qed.

Lemma addTimeBlock_lookup_witness :
  unknownId TimeBlock.id "c" (timeBlocks sampleState) /\
  findTimeBlock "c" (timeBlocks (snd (addTimeBlock "c" lecture sampleState)))
  = Some (TimeBlock.mk "c" (Some "t1"%string) "Lecture"
                       (utcHour day_2024_01_01 13)
                       (utcHour day_2024_01_01 14) day_2024_01_01 None) /\
  findTimeBlock "a" (timeBlocks (snd (addTimeBlock "c" lecture sampleState)))
  = Some study.
Proof.
  split; [exact sampleState_unknown_c|].
  destruct (addTimeBlock_lookup "c" lecture sampleState sampleState_unknown_c)
    as (_ & Hnew & Hold & _).
  split; [exact Hnew|]. rewrite Hold; [reflexivity|discriminate].
Defined.

Lemma delete_after_add_witness :
  unknownId TimeBlock.id "c" (timeBlocks sampleState) /\
  deleteTimeBlock "c" (snd (addTimeBlock "c" lecture sampleState))
  = sampleState.
Proof.
  split; [exact sampleState_unknown_c|].
  exact (delete_after_add "c" lecture sampleState sampleState_unknown_c).
Defined.

Lemma updateTimeBlock_commute_witness :
  "a"%string <> "b"%string /\
  updateTimeBlock "a"
    (TimeBlock.mkUpdates None (Some "Algebra"%string) None None None None)
    (updateTimeBlock "b"
       (TimeBlock.mkUpdates None None None None None (Some None))
       sampleState)
  = updateTimeBlock "b"
      (TimeBlock.mkUpdates None None None None None (Some None))
      (updateTimeBlock "a"
         (TimeBlock.mkUpdates None (Some "Algebra"%string) None None None
                              None)
         sampleState).
Proof.
  split; [discriminate|].
  apply updateTimeBlock_commute. discriminate.
Defined.

Lemma block_ids_stay_unique_witness :
  uniqueIds TimeBlock.id (timeBlocks sampleState) /\
  uniqueIds TimeBlock.id
            (timeBlocks (snd (addTimeBlock "c" lecture sampleState))) /\
  uniqueIds TimeBlock.id
            (timeBlocks (handleDragEnd 0 dropOnReading sampleState)).
Proof.
  split; [exact sampleState_uniqueIds|].
  destruct (block_ids_stay_unique 0 sampleState sampleState_uniqueIds)
    as (Hadd & _ & _ & Hdrag).
  split; [apply Hadd, sampleState_unknown_c|apply Hdrag].
Defined.

Lemma drag_without_effect_witness :
  findTimeBlock "z" (timeBlocks sampleState) = None /\
  handleDragEnd 0 (mkEvent "z" (Some (cellTarget day_2024_01_02 14)))
                sampleState
  = sampleState.
Proof.
  split; [reflexivity|].
  apply drag_without_effect. right. reflexivity.
Defined.

Lemma swap_twice_witness :
  uniqueIds TimeBlock.id (timeBlocks sampleState) /\
  dropsOnBlock dropOnReading sampleState study reading /\
  handleDragEnd 0 dropOnReading (handleDragEnd 0 dropOnReading sampleState)
  = sampleState.
Proof.
  split; [exact sampleState_uniqueIds|].
  split; [exact dropOnReading_dropsOnBlock|].
  exact (swap_twice 0 dropOnReading sampleState study reading
           sampleState_uniqueIds dropOnReading_dropsOnBlock).
Defined.

Lemma toggle_complete_witness :
  uniqueIds Task.id (tasks sampleStore) /\
  option_map Task.completed
    (find (fun t => (Task.id t =? "t1")%string)
          (tasks (handleToggleComplete "t1" sampleStore)))
  = Some true /\
  handleToggleComplete "t1" (handleToggleComplete "t1" sampleStore)
  = sampleStore.
Proof.
  split; [exact sampleStore_uniqueIds|].
  destruct (toggle_complete "t1" sampleStore sampleStore_uniqueIds)
    as (_ & Hflag & Htwice).
  split; [|exact Htwice].
  rewrite (Hflag essay); [reflexivity|left; reflexivity|reflexivity].
Defined.

Lemma created_block_cells_witness :
  (truthy (trim "Lab") = true /\ 0 <= 9 < 24 /\ 1 <= 3 /\
   0 mod ES.msPerSecond = 0) /\
  exists block,
    In block
       (getTimeBlocksForDay day_2024_01_02
          (submitAdd 0 "c" day_2024_01_02 9 "Lab" 3 "bg-green-200"
                     sampleState)) /\
    TimeBlock.id block = "c"%string /\
    TimeBlock.title block = "Lab"%string /\
    forall h,
      0 <= h < 24 ->
      (In block
          (startingBlocksForCell 0 day_2024_01_02 h
             (getTimeBlocksForDay day_2024_01_02
                (submitAdd 0 "c" day_2024_01_02 9 "Lab" 3 "bg-green-200"
                           sampleState)))
       <-> h = 9) /\
      (In block
          (spanningBlocks 0 day_2024_01_02 h
             (getTimeBlocksForDay day_2024_01_02
                (submitAdd 0 "c" day_2024_01_02 9 "Lab" 3 "bg-green-200"
                           sampleState)))
       <-> 9 < h < 9 + 3).
Proof.
  split; [repeat split; lia|].
  apply (created_block_cells 0 "c" day_2024_01_02 9 "Lab" 3 "bg-green-200"
           sampleState); [reflexivity|lia|lia|reflexivity].
Defined.

Lemma moved_block_cell_witness :
  dropsOnCell dropAt14 sampleState study day_2024_01_02 14 /\
  0 <= 14 < 24 /\
  exists a',
    findTimeBlock "a" (timeBlocks (handleDragEnd 0 dropAt14 sampleState))
    = Some a' /\
    (forall b,
        In b (timeBlocks (handleDragEnd 0 dropAt14 sampleState)) ->
        TimeBlock.id b = "a"%string -> TimeBlock.day b = day_2024_01_02) /\
    forall h,
      In a' (startingBlocksForCell 0 day_2024_01_02 h
               (getTimeBlocksForDay day_2024_01_02
                  (handleDragEnd 0 dropAt14 sampleState)))
      <-> h = 14.
Proof.
  split; [exact dropAt14_dropsOnCell|]. split; [lia|].
  apply (moved_block_cell 0 dropAt14 sampleState study day_2024_01_02 14
           dropAt14_dropsOnCell). lia.
Defined.

Lemma columnTimeBlocks_day_witness :
  nth_error (weekDates 0 (startOfWeek 0 (utcHour day_2024_01_02 15))) 2
  = Some day_2024_01_02 /\
  columnTimeBlocks 0 (startOfWeek 0 (utcHour day_2024_01_02 15)) 2
                   (timeBlocks sampleState)
  = [reading].
Proof.
  split; [reflexivity|].
  rewrite (columnTimeBlocks_day 0 _ 2 day_2024_01_02 sampleState);
    reflexivity.
Defined.

Lemma truncateString_result_witness :
  0 <= 4 /\
  truncateString "Mathematics" 4 = "Math..."%string /\
  truncateString "Math" 4 = "Math"%string /\
  truncateString "Maths" 4 = "Math..."%string.
Proof.
  split; [lia|].
  destruct (truncateString_result "Mathematics" 4 ltac:(lia)) as [_ Hlong].
  destruct (truncateString_result "Math" 4 ltac:(lia)) as [Hshort _].
  destruct (truncateString_result "Maths" 4 ltac:(lia)) as [_ Hlong'].
  split; [apply Hlong; reflexivity|].
  split; [apply Hshort; reflexivity|apply Hlong'; reflexivity].
Defined.

Lemma truncateString_idempotent_witness :
  0 <= 4 /\
  truncateString (truncateString "Maths" 4) 4 = "Math..."%string.
Proof.
  split; [lia|].
  rewrite (truncateString_idempotent "Maths" 4); [reflexivity|lia].
Defined.

Lemma sampleState_noTaskRefs : noTaskRefs sampleState.
Proof. intros b [<-|[<-|[]]]; reflexivity. Qed.

Lemma submitted_task_witness :
  truthy (trim "  Revise  ") = true /\
  exists task,
    tasks (submitTask "t3" (utcHour day_2024_01_01 8) "  Revise  " ""
                      (Some (utcHour day_2024_01_02 12)) medium "Maths"
                      (1 # 1) sampleStore)
    = [essay; quiz; task] /\
    Task.id task = "t3"%string /\
    Task.title task = "Revise"%string /\
    Task.completed task = false.
Proof.
  split; [reflexivity|].
  destruct (submitted_task 0 "t3" (utcHour day_2024_01_01 8) "  Revise  " ""
              (utcHour day_2024_01_02 12) medium "Maths" (1 # 1) sampleStore
              eq_refl)
    as ((task & Htasks & Hid & Htitle & _ & Hc & _) & _ & _).
  exists task. split; [exact Htasks|]. split; [exact Hid|].
  split; [exact Htitle|exact Hc].
Defined.

Lemma blocks_never_refer_to_tasks_witness :
  noTaskRefs sampleState /\
  noTaskRefs (handleDragEnd 0 dropOnReading sampleState) /\
  noTaskRefs (submitAdd 0 "c" day_2024_01_02 9 "Lab" 3 "bg-green-200"
                        sampleState).
Proof.
  split; [exact sampleState_noTaskRefs|].
  destruct (blocks_never_refer_to_tasks 0 sampleState sampleState_noTaskRefs)
    as (Hadd & Hdrag & _ & _).
  split; [apply Hdrag|apply Hadd].
Defined.

Lemma formatTime_injective_witness :
  (0 <= 90 /\ 0 <= 60 + 30 /\ formatTime 90 = formatTime (60 + 30)) /\
  90 = 60 + 30 /\
  formatTime 90 = "1h 30m"%string /\
  formatTime 120 = "2h "%string /\
  formatTime 45 = "45m"%string.
Proof.
  split; [repeat split; lia|].
  split; [|repeat split].
  apply formatTime_injective; [lia|lia|reflexivity].
Defined.
